(** * The OpenSciMetrics dashboard: filtering, aggregation and derived state

    A shallow embedding of [web/dashboard/main_dashboard.py]: the reactive
    rules of [MainDashboard] ([did_change_extraction_tool],
    [get_countries_with_count], [did_change_splitting_var]), the aggregation
    engine ([filtered_grouped_data]), the chart builder
    ([updated_echart_plot]) and the picker title ([new_picker_title]).

    Python values are rendered as follows.  A pandas frame is the list of its
    rows in order; a [dict] is an association list in insertion order; a
    raised exception is the left injection of [result]; the attributes of the
    dashboard object are the fields of [state].  Numeric cells of the
    aggregated frame are exact rationals; no statement below depends on how
    pandas rounds them. *)

From Stdlib Require Import List ZArith QArith String Ascii Bool Lia.
From Stdlib Require Import Sorted Permutation DecimalString.
Import ListNotations.

Local Open Scope string_scope.
Local Open Scope Z_scope.

(** ** Exceptions and fallible computations *)

(** The exceptions the modelled code can raise.  The last two are the names
    of the specification's error taxonomy; nothing in the module raises
    them. *)
Inductive exn : Type :=
| KeyError
| IndexError
| ValueError
| NameError
| AttributeError
| UnboundLocalError
| InsufficientDataError
| InvalidFilterError.

Definition result (A : Type) : Type := (exn + A)%type.

Definition Ok {A : Type} (a : A) : result A := inr a.
Definition Raise {A : Type} (e : exn) : result A := inl e.

Definition bind {A B : Type} (c : result A) (k : A -> result B) : result B :=
  match c with
  | inl e => inl e
  | inr a => k a
  end.

Notation "x <- c ;; k" := (bind c (fun x => k))
  (at level 61, c at next level, right associativity).

Notation "' pat <- c ;; k" := (bind c (fun x => match x with pat => k end))
  (at level 61, pat pattern, c at next level, right associativity).

Definition from_option {A : Type} (e : exn) (o : option A) : result A :=
  match o with
  | Some a => Ok a
  | None => Raise e
  end.

(** [for x in l: ...] over a fallible body, collecting the results. *)
Fixpoint mapM {A B : Type} (f : A -> result B) (l : list A) : result (list B) :=
  match l with
  | [] => Ok []
  | a :: t => b <- f a ;; bs <- mapM f t ;; Ok (b :: bs)
  end.

(** ** Python and pandas primitives *)

Section Sequences.
Context {A : Type}.

(** [sorted]: a stable sort, written as insertion from the right; [leb] is
    the order asked for ([key=], [reverse=True] included). *)
Fixpoint insert_sorted (leb : A -> A -> bool) (x : A) (l : list A) : list A :=
  match l with
  | [] => [x]
  | h :: t => if leb x h then x :: l else h :: insert_sorted leb x t
  end.

Definition py_sorted (leb : A -> A -> bool) (l : list A) : list A :=
  fold_right (insert_sorted leb) [] l.

(** [Series.unique()]: the distinct values in order of first appearance. *)
Fixpoint unique (eqb : A -> A -> bool) (l : list A) : list A :=
  match l with
  | [] => []
  | x :: t => x :: filter (fun y => negb (eqb x y)) (unique eqb t)
  end.

Fixpoint count_eq (eqb : A -> A -> bool) (x : A) (l : list A) : nat :=
  match l with
  | [] => O
  | y :: t => if eqb x y then S (count_eq eqb x t) else count_eq eqb x t
  end.

Definition mem (eqb : A -> A -> bool) (x : A) (l : list A) : bool :=
  existsb (eqb x) l.
End Sequences.

(** A [dict] with string keys, in insertion order. *)
Definition dict (V : Type) : Type := list (string * V).

Fixpoint dict_get {V : Type} (k : string) (d : dict V) : option V :=
  match d with
  | [] => None
  | (k', v) :: t => if String.eqb k k' then Some v else dict_get k t
  end.

(** [d[k] = v]: an existing key keeps its place, a new one goes last. *)
Fixpoint dict_set {V : Type} (k : string) (v : V) (d : dict V) : dict V :=
  match d with
  | [] => [(k, v)]
  | (k', v') :: t =>
      if String.eqb k k' then (k', v) :: t else (k', v') :: dict_set k v t
  end.

Definition dict_keys {V : Type} (d : dict V) : list string := map fst d.

(** [d[k] = d.get(k, 0) + 1] *)
Definition dict_incr (k : string) (d : dict nat) : dict nat :=
  dict_set k (S (match dict_get k d with Some n => n | None => O end)) d.

(** Order of Python tuples of strings. *)
Fixpoint tuple_leb (a b : list string) : bool :=
  match a, b with
  | [], _ => true
  | _ :: _, [] => false
  | x :: a', y :: b' =>
      if String.eqb x y then tuple_leb a' b' else String.leb x y
  end.

Definition str_of_nat (n : nat) : string :=
  NilZero.string_of_uint (Nat.to_uint n).

Definition str_of_Z (z : Z) : string :=
  NilZero.string_of_int (Z.to_int z).

(** [Series.value_counts()]: the distinct values with their number of
    occurrences, by decreasing count; values of equal count stay in order of
    first appearance. *)
Definition value_counts (l : list string) : list (string * nat) :=
  py_sorted (fun a b => Nat.leb (snd b) (snd a))
    (map (fun v => (v, count_eq String.eqb v l)) (unique String.eqb l)).

(** ** Data model *)

(** One row of the snapshot.  [affiliation_country] is a tuple of country
    names, or [None]; [fund_pmc_institute] is the column of the RTransparent
    table that the splitting variable of the same name groups by. *)
Record record : Type := mk_record {
  year : Z;
  journal : string;
  affiliation_country : option (list string);
  fund_pmc_institute : string;
  is_data_pred : bool;
  is_code_pred : bool
}.

(** The values the [splitting_var] selector ever admits: its declared
    objects ["year"] and ["fund_pmc_institute"], and those of
    [extraction_tools_params]. *)
Inductive splitting : Type :=
| SV_year
| SV_None
| SV_journal
| SV_affiliation_country
| SV_fund_pmc_institute.

Definition splitting_eqb (a b : splitting) : bool :=
  match a, b with
  | SV_year, SV_year
  | SV_None, SV_None
  | SV_journal, SV_journal
  | SV_affiliation_country, SV_affiliation_country
  | SV_fund_pmc_institute, SV_fund_pmc_institute => true
  | _, _ => false
  end.

Definition splitting_name (v : splitting) : string :=
  match v with
  | SV_year => "year"
  | SV_None => "None"
  | SV_journal => "journal"
  | SV_affiliation_country => "affiliation_country"
  | SV_fund_pmc_institute => "fund_pmc_institute"
  end.

(** A number as pandas returns it from [min()] and [max()]: [None] is the
    NaN of an empty column. *)
Definition num : Type := option Z.

(** ** Module constants *)

Record tool_params : Type := mk_tool_params {
  tp_metrics : list string;
  tp_splitting_vars : list splitting
}.

Definition extraction_tools_params : dict tool_params :=
  [ ("RTransparent",
     mk_tool_params
       ["is_data_pred"; "is_code_pred"]
       [SV_None; SV_journal; SV_affiliation_country; SV_fund_pmc_institute]) ].

Definition dims_aggregations : dict (list string) :=
  [ ("is_data_pred", ["percent"; "count_true"]);
    ("is_code_pred", ["percent"; "count_true"]) ].

Definition metrics_titles : dict string :=
  [ ("percent_is_data_pred", "Data Sharing (%)");
    ("percent_is_code_pred", "Code Sharing (%)");
    ("count_true_is_data_pred", "Data Sharing");
    ("count_true_is_code_pred", "Code Sharing");
    ("mean_score", "Mean Score");
    ("mean_eigenfactor_score", "Mean Eigenfactor Score") ].

(** [{v: k for k, v in metrics_titles.items()}] *)
Definition metrics_by_title : dict string :=
  fold_left (fun d kv => dict_set (snd kv) (fst kv) d) metrics_titles [].

(** A cell of an aggregated column: a number, or NaN. *)
Definition value : Type := option Q.

Definition sum_true (col : list bool) : nat :=
  List.length (filter (fun x => x) col).

(** [x.mean()] of a Boolean column; NaN when the column is empty. *)
Definition mean_bool (col : list bool) : value :=
  match col with
  | [] => None
  | _ :: _ => Some (Z.of_nat (sum_true col) # Pos.of_nat (List.length col))
  end.

Definition aggregation_formulas : dict (list bool -> value) :=
  [ ("percent",
     fun x => option_map (fun m => Qmult m (inject_Z 100)) (mean_bool x));
    ("count_true", fun x => Some (inject_Z (Z.of_nat (sum_true x))));
    ("count", fun x => Some (inject_Z (Z.of_nat (List.length x))));
    ("mean", mean_bool) ].

(** The Boolean columns a metric can be computed from. *)
Definition bool_columns : dict (record -> bool) :=
  [ ("is_data_pred", is_data_pred); ("is_code_pred", is_code_pred) ].

(** ** The dashboard object *)

Record state : Type := mk_state {
  datasets : dict (list record);
  extraction_tool : string;
  raw_data : list record;
  metrics_objects : list string;
  metrics : string;
  splitting_var_objects : list splitting;
  splitting_var : splitting;
  filter_pubdate_bounds : option (num * num);
  filter_pubdate_default : option (num * num);
  filter_pubdate : option (num * num);
  filter_journal_objects : list string;
  filter_journal : list string;
  filter_affiliation_country_objects : list string;
  filter_affiliation_country : list string;
  (** the memo table of [@lru_cache] on [get_countries_with_count] *)
  countries_cache : option (dict nat);
  (** what [pn.state.notifications.info] was called with, oldest first *)
  notifications : list string
}.

Definition set_raw_data (v : list record) (s : state) : state :=
  mk_state (datasets s) (extraction_tool s) v (metrics_objects s) (metrics s)
    (splitting_var_objects s) (splitting_var s) (filter_pubdate_bounds s)
    (filter_pubdate_default s) (filter_pubdate s) (filter_journal_objects s)
    (filter_journal s) (filter_affiliation_country_objects s)
    (filter_affiliation_country s) (countries_cache s) (notifications s).

Definition set_metrics_objects (v : list string) (s : state) : state :=
  mk_state (datasets s) (extraction_tool s) (raw_data s) v (metrics s)
    (splitting_var_objects s) (splitting_var s) (filter_pubdate_bounds s)
    (filter_pubdate_default s) (filter_pubdate s) (filter_journal_objects s)
    (filter_journal s) (filter_affiliation_country_objects s)
    (filter_affiliation_country s) (countries_cache s) (notifications s).

Definition set_metrics (v : string) (s : state) : state :=
  mk_state (datasets s) (extraction_tool s) (raw_data s) (metrics_objects s) v
    (splitting_var_objects s) (splitting_var s) (filter_pubdate_bounds s)
    (filter_pubdate_default s) (filter_pubdate s) (filter_journal_objects s)
    (filter_journal s) (filter_affiliation_country_objects s)
    (filter_affiliation_country s) (countries_cache s) (notifications s).

Definition set_splitting_var_objects (v : list splitting) (s : state) : state :=
  mk_state (datasets s) (extraction_tool s) (raw_data s) (metrics_objects s)
    (metrics s) v (splitting_var s) (filter_pubdate_bounds s)
    (filter_pubdate_default s) (filter_pubdate s) (filter_journal_objects s)
    (filter_journal s) (filter_affiliation_country_objects s)
    (filter_affiliation_country s) (countries_cache s) (notifications s).

Definition set_splitting_var (v : splitting) (s : state) : state :=
  mk_state (datasets s) (extraction_tool s) (raw_data s) (metrics_objects s)
    (metrics s) (splitting_var_objects s) v (filter_pubdate_bounds s)
    (filter_pubdate_default s) (filter_pubdate s) (filter_journal_objects s)
    (filter_journal s) (filter_affiliation_country_objects s)
    (filter_affiliation_country s) (countries_cache s) (notifications s).

Definition set_filter_pubdate_bounds (v : option (num * num)) (s : state) : state :=
  mk_state (datasets s) (extraction_tool s) (raw_data s) (metrics_objects s)
    (metrics s) (splitting_var_objects s) (splitting_var s) v
    (filter_pubdate_default s) (filter_pubdate s) (filter_journal_objects s)
    (filter_journal s) (filter_affiliation_country_objects s)
    (filter_affiliation_country s) (countries_cache s) (notifications s).

Definition set_filter_pubdate_default (v : option (num * num)) (s : state) : state :=
  mk_state (datasets s) (extraction_tool s) (raw_data s) (metrics_objects s)
    (metrics s) (splitting_var_objects s) (splitting_var s)
    (filter_pubdate_bounds s) v (filter_pubdate s) (filter_journal_objects s)
    (filter_journal s) (filter_affiliation_country_objects s)
    (filter_affiliation_country s) (countries_cache s) (notifications s).

Definition set_filter_pubdate (v : option (num * num)) (s : state) : state :=
  mk_state (datasets s) (extraction_tool s) (raw_data s) (metrics_objects s)
    (metrics s) (splitting_var_objects s) (splitting_var s)
    (filter_pubdate_bounds s) (filter_pubdate_default s) v
    (filter_journal_objects s) (filter_journal s)
    (filter_affiliation_country_objects s) (filter_affiliation_country s)
    (countries_cache s) (notifications s).

Definition set_filter_journal_objects (v : list string) (s : state) : state :=
  mk_state (datasets s) (extraction_tool s) (raw_data s) (metrics_objects s)
    (metrics s) (splitting_var_objects s) (splitting_var s)
    (filter_pubdate_bounds s) (filter_pubdate_default s) (filter_pubdate s) v
    (filter_journal s) (filter_affiliation_country_objects s)
    (filter_affiliation_country s) (countries_cache s) (notifications s).

Definition set_filter_journal (v : list string) (s : state) : state :=
  mk_state (datasets s) (extraction_tool s) (raw_data s) (metrics_objects s)
    (metrics s) (splitting_var_objects s) (splitting_var s)
    (filter_pubdate_bounds s) (filter_pubdate_default s) (filter_pubdate s)
    (filter_journal_objects s) v (filter_affiliation_country_objects s)
    (filter_affiliation_country s) (countries_cache s) (notifications s).

Definition set_filter_affiliation_country_objects (v : list string) (s : state)
  : state :=
  mk_state (datasets s) (extraction_tool s) (raw_data s) (metrics_objects s)
    (metrics s) (splitting_var_objects s) (splitting_var s)
    (filter_pubdate_bounds s) (filter_pubdate_default s) (filter_pubdate s)
    (filter_journal_objects s) (filter_journal s) v
    (filter_affiliation_country s) (countries_cache s) (notifications s).

Definition set_filter_affiliation_country (v : list string) (s : state) : state :=
  mk_state (datasets s) (extraction_tool s) (raw_data s) (metrics_objects s)
    (metrics s) (splitting_var_objects s) (splitting_var s)
    (filter_pubdate_bounds s) (filter_pubdate_default s) (filter_pubdate s)
    (filter_journal_objects s) (filter_journal s)
    (filter_affiliation_country_objects s) v (countries_cache s)
    (notifications s).

Definition set_countries_cache (v : option (dict nat)) (s : state) : state :=
  mk_state (datasets s) (extraction_tool s) (raw_data s) (metrics_objects s)
    (metrics s) (splitting_var_objects s) (splitting_var s)
    (filter_pubdate_bounds s) (filter_pubdate_default s) (filter_pubdate s)
    (filter_journal_objects s) (filter_journal s)
    (filter_affiliation_country_objects s) (filter_affiliation_country s) v
    (notifications s).

(** [pn.state.notifications.info(msg, duration=5000)] *)
Definition notify (msg : string) (s : state) : state :=
  mk_state (datasets s) (extraction_tool s) (raw_data s) (metrics_objects s)
    (metrics s) (splitting_var_objects s) (splitting_var s)
    (filter_pubdate_bounds s) (filter_pubdate_default s) (filter_pubdate s)
    (filter_journal_objects s) (filter_journal s)
    (filter_affiliation_country_objects s) (filter_affiliation_country s)
    (countries_cache s) (notifications s ++ [msg]).

(** ** Derived-state resolver *)

(** The body of [get_countries_with_count]: one count per occurrence of a
    country in a row, and one for ["None"] per row without countries. *)
Definition count_countries (rows : list (option (list string))) : dict nat :=
  fold_left
    (fun countries row =>
       match row with
       | None => dict_incr "None" countries
       | Some cs => fold_left (fun d c => dict_incr c d) cs countries
       end)
    rows [].

(** [get_countries_with_count] under [@lru_cache]: the first call on the
    object computes and stores the counts, every later call returns the
    stored dictionary, whatever [raw_data] has become. *)
Definition get_countries_with_count (s : state) : dict nat * state :=
  match countries_cache s with
  | Some d => (d, s)
  | None =>
      let d := count_countries (map affiliation_country (raw_data s)) in
      (d, set_countries_cache (Some d) s)
  end.

Definition notif_journal : string :=
  "Splitting by journal. Top 10 journals selected by default.".
Definition notif_country : string :=
  "Splitting by affiliation country. Top 10 countries selected by default.".
Definition notif_none : string :=
  "No more splitting. Filters reset to default".

(** [did_change_splitting_var]; [notif_msg] is [None] while the local
    variable is unbound. *)
Definition did_change_splitting_var (s : state) : result state :=
  let '(s, notif_msg) :=
    if splitting_eqb (splitting_var s) SV_journal then
      (set_filter_journal
         (firstn 10 (map fst (value_counts (map journal (raw_data s))))) s,
       Some notif_journal)
    else
      (set_filter_journal (filter_journal_objects s) s, None) in
  '(s, notif_msg) <-
    (if splitting_eqb (splitting_var s) SV_affiliation_country then
       let '(countries_with_count, s) := get_countries_with_count s in
       let countries_with_count :=
         filter (fun cc => Nat.ltb 10 (snd cc)) countries_with_count in
       top_10_min <-
         from_option IndexError
           (nth_error
              (py_sorted (fun a b => Nat.leb b a)
                 (map snd countries_with_count))
              10) ;;
       let selected_countries :=
         map fst
           (filter (fun cc => Nat.leb top_10_min (snd cc))
              countries_with_count) in
       Ok (set_filter_affiliation_country selected_countries s,
           Some notif_country)
     else
       Ok (set_filter_affiliation_country
             (filter_affiliation_country_objects s) s,
           notif_msg)) ;;
  let notif_msg :=
    if splitting_eqb (splitting_var s) SV_None then Some notif_none
    else notif_msg in
  msg <- from_option UnboundLocalError notif_msg ;;
  Ok (notify msg s).

(** [self.splitting_var = v]: the watcher runs when the value changes. *)
Definition assign_splitting_var (v : splitting) (s : state) : result state :=
  if splitting_eqb v (splitting_var s) then Ok s
  else did_change_splitting_var (set_splitting_var v s).

Definition year_min (df : list record) : num :=
  match map year df with
  | [] => None
  | y :: t => Some (fold_left Z.min t y)
  end.

Definition year_max (df : list record) : num :=
  match map year df with
  | [] => None
  | y :: t => Some (fold_left Z.max t y)
  end.

(** The sort key of the country universe; its argument is always a key of
    the dictionary. *)
Definition country_sorter (countries_with_count : dict nat) (c : string) : nat :=
  match dict_get c countries_with_count with
  | Some n => n
  | None => O
  end.

(** [did_change_extraction_tool]; [now_year] is [datetime.now().year].  The
    assignments to [metrics], [filter_pubdate] and [splitting_var] also wake
    the chart watcher; it writes to the pane only, which no rule reads, and
    is given on its own as [updated_echart_plot] below. *)
Definition did_change_extraction_tool (now_year : Z) (s : state) : result state :=
  raw <- from_option KeyError (dict_get (extraction_tool s) (datasets s)) ;;
  let s := set_raw_data raw s in
  params <-
    from_option KeyError (dict_get (extraction_tool s) extraction_tools_params) ;;
  new_metrics <-
    mapM
      (fun m =>
         aggs <- from_option KeyError (dict_get m dims_aggregations) ;;
         mapM
           (fun agg =>
              from_option KeyError (dict_get (agg ++ "_" ++ m) metrics_titles))
           aggs)
      (tp_metrics params) ;;
  let s := set_metrics_objects (List.concat new_metrics) s in
  first_metric <- from_option IndexError (nth_error (metrics_objects s) 0) ;;
  let s := set_metrics first_metric s in
  let s := set_splitting_var_objects (tp_splitting_vars params) s in
  let s :=
    set_filter_pubdate_bounds
      (Some (year_min (raw_data s), Some now_year)) s in
  let s :=
    set_filter_pubdate_default
      (Some (year_min (raw_data s), year_max (raw_data s))) s in
  let s :=
    set_filter_pubdate (Some (year_min (raw_data s), year_max (raw_data s))) s in
  let s :=
    set_filter_journal_objects
      (unique String.eqb (map journal (raw_data s))) s in
  let '(countries_with_count, s) := get_countries_with_count s in
  let s :=
    set_filter_affiliation_country_objects
      (py_sorted
         (fun a b =>
            Nat.leb (country_sorter countries_with_count b)
              (country_sorter countries_with_count a))
         (dict_keys countries_with_count))
      s in
  first_var <- from_option IndexError (nth_error (splitting_var_objects s) 0) ;;
  assign_splitting_var first_var s.

(** ** Aggregation engine *)

(** [len(self.filter_journal) != self.param.filter_journal.objects]: an
    integer compared with a list, which are never equal. *)
Definition int_ne_list (n : nat) (l : list string) : bool := true.

(** The clauses [filtered_grouped_data] joins with ["and"]. *)
Inductive clause : Type :=
| journal_in (l : list string)
| year_ge (b : num)
| year_le (b : num).

(** What a clause selects; [nan] is not a name a query can resolve. *)
Definition eval_clause (c : clause) : result (record -> bool) :=
  match c with
  | journal_in l => Ok (fun r => mem String.eqb (journal r) l)
  | year_ge (Some b) => Ok (fun r => b <=? year r)
  | year_le (Some b) => Ok (fun r => year r <=? b)
  | year_ge None | year_le None => Raise NameError
  end.

Definition query (filters : list clause) (df : list record)
  : result (list record) :=
  preds <- mapM eval_clause filters ;;
  Ok (filter (fun r => forallb (fun p => p r) preds) df).

Definition journal_clauses (s : state) : list clause :=
  if int_ne_list (List.length (filter_journal s)) (filter_journal_objects s)
  then [journal_in (filter_journal s)]
  else [].

Definition pubdate_clauses (s : state) : list clause :=
  match filter_pubdate s with
  | Some (lo, hi) => [year_ge lo; year_le hi]
  | None => []
  end.

Definition country_filter (s : state) (cell : option (list string)) : bool :=
  match cell with
  | None => mem String.eqb "None" (filter_affiliation_country s)
  | Some cs =>
      existsb (fun c => mem String.eqb c (filter_affiliation_country s)) cs
  end.

(** The first half of [filtered_grouped_data]: the rows left by the
    filters. *)
Definition filtered_df (s : state) : result (list record) :=
  let filters := (journal_clauses s ++ pubdate_clauses s)%list in
  filtered_df <-
    (match filters with
     | [] => Ok (raw_data s)
     | _ :: _ => query filters (raw_data s)
     end) ;;
  if negb (Nat.eqb (List.length (filter_affiliation_country s))
             (List.length (filter_affiliation_country_objects s)))
  then Ok (filter (fun r => country_filter s (affiliation_country r)) filtered_df)
  else Ok filtered_df.

(** The value of a grouping column other than [year]. *)
Inductive cell : Type :=
| CStr (c : string)
| CTuple (t : list string).

Fixpoint tuple_eqb (a b : list string) : bool :=
  match a, b with
  | [], [] => true
  | x :: a', y :: b' => String.eqb x y && tuple_eqb a' b'
  | _, _ => false
  end.

Definition cell_eqb (a b : cell) : bool :=
  match a, b with
  | CStr x, CStr y => String.eqb x y
  | CTuple x, CTuple y => tuple_eqb x y
  | _, _ => false
  end.

(** Cells of one column are of one kind; the order between kinds is never
    consulted. *)
Definition cell_leb (a b : cell) : bool :=
  match a, b with
  | CStr x, CStr y => String.leb x y
  | CTuple x, CTuple y => tuple_leb x y
  | CStr _, CTuple _ => true
  | CTuple _, CStr _ => false
  end.

(** The cell of the column a splitting variable names; [None] is a null. *)
Definition split_cell (v : splitting) (r : record) : option cell :=
  match v with
  | SV_journal => Some (CStr (journal r))
  | SV_affiliation_country => option_map CTuple (affiliation_country r)
  | SV_fund_pmc_institute => Some (CStr (fund_pmc_institute r))
  | SV_year | SV_None => None
  end.

Definition opt_cell_eqb (a b : option cell) : bool :=
  match a, b with
  | Some x, Some y => cell_eqb x y
  | None, None => true
  | _, _ => false
  end.

(** [aggretations]: the named aggregations, one per field and operator. *)
Definition aggretations : result (dict (list record -> value)) :=
  l <-
    mapM
      (fun fa =>
         col <- from_option KeyError (dict_get (fst fa) bool_columns) ;;
         mapM
           (fun agg =>
              f <- from_option KeyError (dict_get agg aggregation_formulas) ;;
              Ok (agg ++ "_" ++ fst fa, fun g : list record => f (map col g)))
           (snd fa))
      dims_aggregations ;;
  Ok (fold_left (fun d kv => dict_set (fst kv) (snd kv) d) (List.concat l) []).

(** A row of the aggregated frame after [reset_index]. *)
Record agg_row : Type := mk_agg_row {
  row_year : Z;
  row_split : option cell;
  row_values : dict value
}.

Record frame : Type := mk_frame {
  columns : list string;
  rows : list agg_row
}.

Definition agg_group (aggs : dict (list record -> value)) (y : Z)
    (k : option cell) (g : list record) : agg_row :=
  mk_agg_row y k (map (fun a => (fst a, snd a g)) aggs).

Definition years_sorted (ys : list Z) : list Z :=
  py_sorted Z.leb (unique Z.eqb ys).

(** The non-null cells of a splitting column. *)
Definition split_cells (v : splitting) (g : list record) : list cell :=
  flat_map
    (fun r => match split_cell v r with Some k => [k] | None => [] end) g.

(** [groupby(["year"])]: one group per year present, by increasing year. *)
Definition groupby_year (aggs : dict (list record -> value)) (df : list record)
  : list agg_row :=
  map
    (fun y => agg_group aggs y None (filter (fun r => year r =? y) df))
    (years_sorted (map year df)).

(** [groupby(["year", v])]: one group per pair present, in the order of the
    pairs; rows whose [v] is null belong to no group. *)
Definition groupby_year_split (v : splitting)
    (aggs : dict (list record -> value)) (df : list record) : list agg_row :=
  flat_map
    (fun y =>
       let g := filter (fun r => year r =? y) df in
       map
         (fun k =>
            agg_group aggs y (Some k)
              (filter (fun r => opt_cell_eqb (split_cell v r) (Some k)) g))
         (py_sorted cell_leb (unique cell_eqb (split_cells v g))))
    (years_sorted (map year df)).

(** [filtered_grouped_data].  With the selector still at ["year"] the
    groupers are [["year", "year"]] and [reset_index] cannot insert the
    column twice. *)
Definition filtered_grouped_data (s : state) : result frame :=
  filtered_df <- filtered_df s ;;
  aggretations <- aggretations ;;
  match splitting_var s with
  | SV_None =>
      Ok (mk_frame (dict_keys aggretations)
            (groupby_year aggretations filtered_df))
  | SV_year => Raise ValueError
  | v =>
      Ok (mk_frame (dict_keys aggretations)
            (groupby_year_split v aggretations filtered_df))
  end.

(** ** Chart series builder *)

Record series : Type := mk_series {
  series_id : string;
  series_name : string;
  series_data : list value
}.

Record echarts_config : Type := mk_echarts_config {
  title_text : string;
  legend_data : list (string * string);
  xAxis_data : list Z;
  config_series : list series
}.

Definition legend_icon : string := "path://M 0 0 H 20 V 20 H 0 Z".

Definition cell_value (name : string) (row : agg_row) : value :=
  match dict_get name (row_values row) with
  | Some v => v
  | None => None
  end.

(** [df[name].tolist()] *)
Definition frame_column (name : string) (df : frame) : result (list value) :=
  if mem String.eqb name (columns df)
  then Ok (map (cell_value name) (rows df))
  else Raise KeyError.

(** The ["mean"] of a numeric column, NaN cells left out. *)
Definition mean_values (l : list value) : value :=
  let xs :=
    flat_map (fun v => match v with Some q => [q] | None => [] end) l in
  match xs with
  | [] => None
  | _ :: _ =>
      Some (Qdiv (fold_left Qplus xs (inject_Z 0))
              (inject_Z (Z.of_nat (List.length xs))))
  end.

(** [.groupby("year").agg({raw_metric: "mean"}).reset_index()] *)
Definition mean_by_year (raw_metric : string) (rs : list agg_row)
  : list (Z * value) :=
  map
    (fun y =>
       (y,
        mean_values
          (map (cell_value raw_metric)
             (filter (fun r => row_year r =? y) rs))))
    (years_sorted (map row_year rs)).

(** [selected_item in cell], on the tuples of the country column. *)
Definition item_in_cell (c : option cell) (selected_item : string) : bool :=
  match c with
  | Some (CTuple t) => mem String.eqb selected_item t
  | _ => false
  end.

(** [cell == selected_item] *)
Definition cell_is_item (c : option cell) (selected_item : string) : bool :=
  opt_cell_eqb c (Some (CStr selected_item)).

(** [updated_echart_plot]: the configuration assigned to the pane, or [None]
    when the method returns before building one. *)
Definition updated_echart_plot (s : state) : result (option echarts_config) :=
  match filter_pubdate s with
  | None => Ok None
  | Some (lo, hi) =>
      df <- filtered_grouped_data s ;;
      raw_metric <- from_option KeyError (dict_get (metrics s) metrics_by_title) ;;
      let xAxis := unique Z.eqb (map row_year (rows df)) in
      ' (series, legend_data) <-
        (if splitting_eqb (splitting_var s) SV_None then
           data <- frame_column raw_metric df ;;
           Ok ([mk_series (metrics s) (metrics s) data],
               [(metrics s, legend_icon)])
         else
           ' (splitting_var_filter, splitting_var_query) <-
             (match splitting_var s with
              | SV_affiliation_country =>
                  Ok (filter_affiliation_country s, item_in_cell)
              | SV_fund_pmc_institute => Raise AttributeError
              | _ => Ok (filter_journal s, cell_is_item)
              end) ;;
           series <-
             mapM
               (fun selected_item =>
                  _ <- frame_column raw_metric df ;;
                  let sub_df :=
                    mean_by_year raw_metric
                      (filter
                         (fun r => splitting_var_query (row_split r) selected_item)
                         (rows df)) in
                  Ok (mk_series selected_item selected_item (map snd sub_df)))
               (py_sorted String.leb splitting_var_filter) ;;
           Ok (series, map (fun d => (series_name d, legend_icon)) series)) ;;
      lo <- from_option ValueError lo ;;
      hi <- from_option ValueError hi ;;
      let title :=
        metrics s ++ " by " ++ splitting_name (splitting_var s)
        ++ " (" ++ str_of_Z lo ++ "-" ++ str_of_Z hi ++ ")" in
      Ok (Some (mk_echarts_config title legend_data xAxis series))
  end.

(** ** Selection-title formatter *)

Record select_picker : Type := mk_select_picker {
  picker_value : list string;
  picker_options : list string
}.

Definition new_picker_title (entity : string) (picker : select_picker)
    (values options : list string) : string :=
  let value_count := List.length (picker_value picker) in
  let options_count := List.length (picker_options picker) in
  if Nat.eqb value_count options_count then
    "All " ++ entity ++ " (" ++ str_of_nat value_count ++ ")"
  else if Nat.eqb value_count 0 then
    "No " ++ entity ++ " (0 out of " ++ str_of_nat options_count ++ ")"
  else
    str_of_nat value_count ++ " " ++ entity ++ " out of "
    ++ str_of_nat options_count.

(** ** Nested dictionaries ([osm/_utils.py]) *)

(** A value of a nested dictionary: a leaf, or a dictionary again. *)
#[warnings="-register-all"]
Inductive pyobj (V : Type) : Type :=
| PLeaf (v : V)
| PDict (items : list (string * pyobj V)).

Arguments PLeaf {V} v.
Arguments PDict {V} items.

(** [dict(items)]: a later pair replaces the value of an earlier pair with
    the same key, which keeps its place. *)
Definition dict_of_items {V : Type} (items : list (string * V)) : dict V :=
  fold_left (fun d kv => dict_set (fst kv) (snd kv) d) items [].

(** What one pair of the dictionary adds to [items]: the items of the
    flattened value when it is a dictionary, the pair itself otherwise. *)
Fixpoint flatten_value {V : Type} (k : string) (v : pyobj V)
  : list (string * V) :=
  match v with
  | PLeaf x => [(k, x)]
  | PDict d =>
      dict_of_items
        (flat_map (fun kv => let '(k', v') := kv in flatten_value k' v') d)
  end.

(** [flatten_dict] *)
Definition flatten_dict {V : Type} (d : list (string * pyobj V)) : dict V :=
  dict_of_items
    (flat_map (fun kv => let '(k, v) := kv in flatten_value k v) d).

(** ** Loading the snapshot ([web/dashboard/app.py]) *)

(** [pc.split_pattern(s, pattern=";")]: the pieces between the separators. *)
Fixpoint split_pattern (sep : ascii) (s : string) : list string :=
  match s with
  | EmptyString => [EmptyString]
  | String c s' =>
      if Ascii.eqb c sep then EmptyString :: split_pattern sep s'
      else
        match split_pattern sep s' with
        | [] => [String c EmptyString]
        | piece :: pieces => String c piece :: pieces
        end
  end.

(** A row of the table [load_data] reads; the country column is a string of
    names separated by semicolons, or null. *)
Record table_row : Type := mk_table_row {
  t_year : Z;
  t_journal : string;
  t_affiliation_country : option string;
  t_fund_pmc_institute : string;
  t_is_data_pred : bool;
  t_is_code_pred : bool
}.

Definition excluded_journal : string :=
  "Acta Crystallographica Section E: Structure Reports Online".

Section Loading.
(** [str.strip], and the order in which [tuple(set(...))] lists the values
    of a set, which Python leaves open. *)
Variable strip : string -> string.
Variable tuple_of_set : list string -> list string.

(** The function [load_data] applies to each cell of the list columns. *)
Definition normalize_cell (x : list string) : list string :=
  if Nat.eqb (List.length x) 0
     || (Nat.eqb (List.length x) 1 && String.eqb (nth 0 x "") "")
  then ["None"]
  else tuple_of_set (map strip x).

(** [load_data], from the table on: split the country strings, keep the
    years from 2000, normalize the cells, drop the excluded journal. *)
Definition load_data (tb : list table_row) : list record :=
  let split_col :=
    map
      (fun t =>
         (t,
          split_pattern ";"%char
            (match t_affiliation_country t with
             | None => ""
             | Some c => c
             end)))
      tb in
  let raw_data := filter (fun tc => 2000 <=? t_year (fst tc)) split_col in
  let raw_data :=
    map
      (fun tc =>
         mk_record (t_year (fst tc)) (t_journal (fst tc))
           (Some (normalize_cell (snd tc)))
           (t_fund_pmc_institute (fst tc)) (t_is_data_pred (fst tc))
           (t_is_code_pred (fst tc)))
      raw_data in
  filter (fun r => negb (String.eqb (journal r) excluded_journal)) raw_data.
End Loading.

(** ** Notions the statements below refer to *)

(** The candidates of the country default: the counted countries that occur
    more than ten times, as [did_change_splitting_var] restricts them. *)
Definition qualifying_countries (s : state) : dict nat :=
  filter (fun cc => Nat.ltb 10 (snd cc)) (fst (get_countries_with_count s)).

(** The counts of the candidates, largest first. *)
Definition qualifying_counts (s : state) : list nat :=
  py_sorted (fun a b => Nat.leb b a) (map snd (qualifying_countries s)).

(** The country default as the specification words it: [top_10_min] is the
    10th-largest count among the candidates, and every candidate whose count
    reaches it is selected. *)
Definition spec_country_default (s : state) : option (list string) :=
  match nth_error (qualifying_counts s) 9 with
  | Some top_10_min =>
      Some (map fst
              (filter (fun cc => Nat.leb top_10_min (snd cc))
                 (qualifying_countries s)))
  | None => None
  end.



(** The journal criterion of the filtering step: the conjunction of the
    journal clauses of the query. *)
Definition passes_journal (s : state) (r : record) : bool :=
  forallb
    (fun c =>
       match eval_clause c with
       | inr p => p r
       | inl _ => false
       end)
    (journal_clauses s).

(** The date criterion and the country criterion, likewise. *)
Definition passes_pubdate (s : state) (r : record) : bool :=
  forallb
    (fun c =>
       match eval_clause c with
       | inr p => p r
       | inl _ => false
       end)
    (pubdate_clauses s).

Definition passes_country (s : state) (r : record) : bool :=
  if negb (Nat.eqb (List.length (filter_affiliation_country s))
             (List.length (filter_affiliation_country_objects s)))
  then country_filter s (affiliation_country r)
  else true.


(** The relation a Boolean order decides. *)
Definition leb_rel {A : Type} (leb : A -> A -> bool) (a b : A) : Prop :=
  leb a b = true.

(** The cells that head the groups of one year. *)
Definition year_cells (v : splitting) (df : list record) (y : Z) : list cell :=
  py_sorted cell_leb
    (unique cell_eqb (split_cells v (filter (fun r => year r =? y) df))).

(** The aggregated rows a series of a split chart is drawn from: those
    whose splitting cell holds, or is, the selected item. *)
Definition series_rows (v : splitting) (df : frame) (selected_item : string)
  : list agg_row :=
  filter
    (fun r =>
       match v with
       | SV_affiliation_country => item_in_cell (row_split r) selected_item
       | _ => cell_is_item (row_split r) selected_item
       end)
    (rows df).

(** The selection a split chart draws one series per value of. *)
Definition split_filter (s : state) : list string :=
  match splitting_var s with
  | SV_affiliation_country => filter_affiliation_country s
  | _ => filter_journal s
  end.

(** The series of the chart, given the aggregated frame and the column of
    the metric. *)
Definition chart_series (s : state) (df : frame) (raw_metric : string)
  : list series :=
  if splitting_eqb (splitting_var s) SV_None then
    [mk_series (metrics s) (metrics s) (map (cell_value raw_metric) (rows df))]
  else
    map
      (fun item =>
         mk_series item item
           (map snd
              (mean_by_year raw_metric
                 (series_rows (splitting_var s) df item))))
      (py_sorted String.leb (split_filter s)).

(** The metric catalog of the RTransparent source. *)
Definition catalog : list string :=
  ["Data Sharing (%)"; "Data Sharing"; "Code Sharing (%)"; "Code Sharing"].

(** The group a record falls in: its year and, when the frame is split, the
    cell of the splitting column. *)
Definition group_of (v : splitting) (r : record) : option (Z * option cell) :=
  match v with
  | SV_None => Some (year r, None)
  | _ =>
      match split_cell v r with
      | Some k => Some (year r, Some k)
      | None => None
      end
  end.

Definition row_group (row : agg_row) : Z * option cell :=
  (row_year row, row_split row).

(** The splitting variables of [extraction_tools_params]. *)
Definition configured (v : splitting) : Prop := v <> SV_year.

(** Both bounds of the date range are numbers. *)
Definition numeric_range (s : state) : Prop :=
  match filter_pubdate s with
  | Some (Some _, Some _) | None => True
  | _ => False
  end.

(** No row of the snapshot lacks its country tuple, as [load_data] leaves
    the column. *)
Definition normalized (df : list record) : Prop :=
  forall r, In r df -> affiliation_country r <> None.

(** What the [extraction_tool] rule derives. *)
Definition derived_state (s : state) :=
  (metrics_objects s, metrics s,
   (filter_pubdate_bounds s, filter_pubdate_default s, filter_pubdate s),
   (filter_journal_objects s, filter_affiliation_country_objects s),
   (splitting_var_objects s, splitting_var s),
   (filter_journal s, filter_affiliation_country s)).

(** How often a country name is counted for one cell of the country column,
    and for a whole column. *)
Definition cell_occurrences (c : string) (row : option (list string)) : nat :=
  match row with
  | None => if String.eqb c "None" then 1%nat else O
  | Some cs => count_eq String.eqb c cs
  end.

Definition occurrences (c : string) (rows : list (option (list string))) : nat :=
  list_sum (map (cell_occurrences c) rows).

(** A dictionary of counts: no key twice, no count of zero. *)
Definition counts_wf (d : dict nat) : Prop :=
  NoDup (dict_keys d) /\ forall k, dict_get k d <> Some O.

(** The integer a count cell of the aggregated frame holds. *)
Definition count_cell (name : string) (row : agg_row) : nat :=
  match cell_value name row with
  | Some q => Z.to_nat (Qnum q)
  | None => O
  end.

(** The leaves of a nested dictionary with their own keys, in the order
    they are written. *)
Fixpoint leaves_under {V : Type} (k : string) (v : pyobj V)
  : list (string * V) :=
  match v with
  | PLeaf x => [(k, x)]
  | PDict d =>
      flat_map (fun kv => let '(k', v') := kv in leaves_under k' v') d
  end.

Definition leaves {V : Type} (d : list (string * pyobj V)) : list (string * V) :=
  flat_map (fun kv => let '(k, v) := kv in leaves_under k v) d.

(** The value written last under a key. *)
Definition last_value {V : Type} (k : string) (l : list (string * V))
  : option V :=
  dict_get k (rev l).

(** A flat dictionary as a nested one. *)
Definition as_leaves {V : Type} (d : dict V) : list (string * pyobj V) :=
  map (fun kv => (fst kv, PLeaf (snd kv))) d.


(** ** Sample snapshots *)

Definition paper (y : Z) (j : string) (cs : list string) (d c : bool) : record :=
  mk_record y j (Some cs) "" d c.

(** A dashboard object on one RTransparent snapshot, before any rule ran. *)
Definition dashboard_on (df : list record) : state :=
  mk_state [("RTransparent", df)] "RTransparent" [] [] ""
    [SV_year; SV_fund_pmc_institute] SV_year None None None [] [] [] [] None [].

(** The same object once [did_change_extraction_tool] has run in 2024. *)
Definition loaded (df : list record) : state :=
  match did_change_extraction_tool 2024 (dashboard_on df) with
  | inr s => s
  | inl _ => dashboard_on df
  end.

Definition three_papers : list record :=
  [ paper 2020 "J1" ["US"] true false;
    paper 2020 "J1" ["US"] false false;
    paper 2021 "J2" ["FR"] true true ].

(** [n] papers from country [c]. *)
Definition papers_from (cn : string * nat) : list record :=
  repeat (paper 2020 "J" [fst cn] true false) (snd cn).

(** Eleven countries with the counts 21, 20, ..., 11. *)
Definition eleven_countries : list record :=
  flat_map papers_from
    [ ("A", 21%nat); ("B", 20%nat); ("C", 19%nat); ("D", 18%nat);
      ("E", 17%nat); ("F", 16%nat); ("G", 15%nat); ("H", 14%nat);
      ("I", 13%nat); ("J", 12%nat); ("K", 11%nat) ].

(** Eleven journals with one paper each, named in decreasing order. *)
Definition eleven_journals : list record :=
  map (fun j => paper 2020 j ["US"] true false)
    ["K"; "J"; "I"; "H"; "G"; "F"; "E"; "D"; "C"; "B"; "A"].

(** Journal B has no paper in 2021. *)
Definition gap_papers : list record :=
  [ paper 2020 "A" ["US"] true false;
    paper 2021 "A" ["US"] true false;
    paper 2020 "B" ["US"] false false ].

(** The object after [self.splitting_var = v]. *)
Definition split_by (v : splitting) (s : state) : state :=
  match assign_splitting_var v s with
  | inr s' => s'
  | inl _ => s
  end.

(** The object [s] with the snapshot of RTransparent replaced by [df]. *)
Definition with_snapshot (df : list record) (s : state) : state :=
  mk_state [("RTransparent", df)] (extraction_tool s) (raw_data s)
    (metrics_objects s) (metrics s) (splitting_var_objects s)
    (splitting_var s) (filter_pubdate_bounds s) (filter_pubdate_default s)
    (filter_pubdate s) (filter_journal_objects s) (filter_journal s)
    (filter_affiliation_country_objects s) (filter_affiliation_country s)
    (countries_cache s) (notifications s).

(** The object after [did_change_extraction_tool] ran on it in 2024. *)
Definition rerun (s : state) : state :=
  match did_change_extraction_tool 2024 s with
  | inr s' => s'
  | inl _ => s
  end.

(** * Verification *)

(** ** Sequences *)

Lemma mem_In (x : string) (l : list string) :
  mem String.eqb x l = true <-> In x l.
Proof.
  unfold mem. rewrite existsb_exists. split.
  - intros [y [Hy Heq]]. apply String.eqb_eq in Heq. now subst.
  - intros H. exists x. split; [assumption | apply String.eqb_refl].
Qed.

Lemma filter_twice {A : Type} (f g : A -> bool) (l : list A) :
  filter f (filter g l) = filter (fun x => g x && f x) l.
Proof.
  induction l as [|a l IH]; simpl; [reflexivity |].
  destruct (g a); simpl; [destruct (f a) |]; now rewrite IH.
Qed.


Lemma filter_all {A : Type} (f : A -> bool) (l : list A) :
  (forall x, In x l -> f x = true) -> filter f l = l.
Proof.
  induction l as [|a l IH]; simpl; intros H; [reflexivity |].
  rewrite (H a (or_introl eq_refl)). f_equal. apply IH.
  intros x Hx. apply H. now right.
Qed.

Section SortFacts.
Context {A : Type} (leb : A -> A -> bool).

Lemma insert_sorted_perm (x : A) (l : list A) :
  Permutation (insert_sorted leb x l) (x :: l).
Proof.
  induction l as [|h t IH]; simpl.
  - apply Permutation_refl.
  - destruct (leb x h).
    + apply Permutation_refl.
    + eapply perm_trans; [apply perm_skip, IH | apply perm_swap].
Qed.

Lemma py_sorted_perm (l : list A) : Permutation (py_sorted leb l) l.
Proof.
  induction l as [|h t IH]; simpl.
  - apply perm_nil.
  - eapply perm_trans; [apply insert_sorted_perm | apply perm_skip, IH].
Qed.

Lemma py_sorted_In (x : A) (l : list A) : In x (py_sorted leb l) <-> In x l.
Proof.
  split; apply Permutation_in;
    [apply py_sorted_perm | apply Permutation_sym, py_sorted_perm].
Qed.

Lemma py_sorted_length (l : list A) :
  List.length (py_sorted leb l) = List.length l.
Proof. apply Permutation_length, py_sorted_perm. Qed.

Lemma py_sorted_NoDup (l : list A) : NoDup l -> NoDup (py_sorted leb l).
Proof.
  intros H. eapply Permutation_NoDup; [|exact H].
  apply Permutation_sym, py_sorted_perm.
Qed.
End SortFacts.

Section UniqueFacts.
Context {A : Type} (eqb : A -> A -> bool).
Hypothesis eqb_eq : forall x y, eqb x y = true <-> x = y.

Lemma unique_In (x : A) (l : list A) : In x (unique eqb l) <-> In x l.
Proof.
  induction l as [|a l IH]; simpl; [tauto |].
  rewrite filter_In, IH. split.
  - intros [H | [H _]]; auto.
  - intros [H | H]; [now left |].
    destruct (eqb a x) eqn:E.
    + left. now apply eqb_eq.
    + right. split; [assumption | reflexivity].
Qed.

Lemma unique_NoDup (l : list A) : NoDup (unique eqb l).
Proof.
  induction l as [|a l IH]; simpl; constructor.
  - rewrite filter_In. intros [_ H].
    assert (eqb a a = true) as E by now apply eqb_eq.
    rewrite E in H. discriminate.
  - now apply NoDup_filter.
Qed.
End UniqueFacts.


Section SortOrder.
Context {A : Type} (leb : A -> A -> bool).
Hypothesis leb_total : forall a b, leb a b = true \/ leb b a = true.
Hypothesis leb_trans :
  forall a b c, leb a b = true -> leb b c = true -> leb a c = true.

Lemma insert_sorted_Forall (P : A -> Prop) (x : A) (l : list A) :
  P x -> Forall P l -> Forall P (insert_sorted leb x l).
Proof.
  intros Hx Hl. induction Hl as [|h t Hh Ht IH]; simpl.
  - constructor; [assumption | constructor].
  - destruct (leb x h); repeat constructor; assumption.
Qed.

Lemma insert_sorted_sorted (x : A) (l : list A) :
  StronglySorted (leb_rel leb) l -> StronglySorted (leb_rel leb) (insert_sorted leb x l).
Proof.
  intros Hl. induction Hl as [|h t Ht IH Hh]; simpl.
  - constructor; constructor.
  - destruct (leb x h) eqn:E.
    + constructor; [constructor; assumption |].
      constructor; [exact E |]. unfold leb_rel in *.
      eapply Forall_impl; [| exact Hh].
      intros b Hb. exact (leb_trans _ _ _ E Hb).
    + constructor; [exact IH |].
      apply insert_sorted_Forall; [| exact Hh].
      destruct (leb_total x h) as [H|H]; [congruence | exact H].
Qed.

Lemma py_sorted_sorted (l : list A) : StronglySorted (leb_rel leb) (py_sorted leb l).
Proof.
  induction l as [|x l IH]; simpl.
  - constructor.
  - now apply insert_sorted_sorted.
Qed.
End SortOrder.

Section SortStable.
Context {A : Type} (leb : A -> A -> bool) (P : A -> bool).
Hypothesis P_tied : forall a b, P a = true -> P b = true -> leb a b = true.


End SortStable.

Lemma py_sorted_map {A B : Type} (g : A -> B) (leb : B -> B -> bool)
    (l : list A) :
  py_sorted leb (map g l) = map g (py_sorted (fun a b => leb (g a) (g b)) l).
Proof.
  induction l as [|x l IH]; [reflexivity |].
  cbn [map py_sorted fold_right].
  fold (py_sorted leb (map g l)).
  fold (py_sorted (fun a b => leb (g a) (g b)) l).
  rewrite IH. generalize (py_sorted (fun a b => leb (g a) (g b)) l) as t.
  induction t as [|h t IHt]; [reflexivity |].
  cbn [map insert_sorted]. destruct (leb (g x) (g h)); [reflexivity |].
  cbn [map]. now rewrite IHt.
Qed.

Lemma StronglySorted_app_le {A : Type} (R : A -> A -> Prop) (l1 l2 : list A) :
  StronglySorted R (l1 ++ l2) ->
  forall x y, In x l1 -> In y l2 -> R x y.
Proof.
  induction l1 as [|a l1 IH]; simpl; intros Hs x y Hx Hy; [contradiction |].
  inversion Hs as [|? ? Hs' Hall]; subst.
  destruct Hx as [<- | Hx].
  - rewrite Forall_forall in Hall. apply Hall. apply in_or_app. now right.
  - now apply IH.
Qed.

Lemma StronglySorted_app {A : Type} (R : A -> A -> Prop) (l1 l2 : list A) :
  StronglySorted R l1 ->
  StronglySorted R l2 ->
  (forall x y, In x l1 -> In y l2 -> R x y) ->
  StronglySorted R (l1 ++ l2).
Proof.
  intros H1 H2 H. induction H1 as [|a l1 H1 IH Hall]; simpl; [exact H2 |].
  constructor.
  - apply IH. intros x y Hx Hy. apply H; [now right | assumption].
  - apply Forall_app. split; [exact Hall |].
    apply Forall_forall. intros y Hy. apply H; [now left | assumption].
Qed.

Lemma StronglySorted_weaken {A : Type} (R R' : A -> A -> Prop) (l : list A) :
  (forall a b, R a b -> R' a b) -> StronglySorted R l -> StronglySorted R' l.
Proof.
  intros HR Hs. induction Hs as [|a l Hs IH Hall]; constructor.
  - exact IH.
  - eapply Forall_impl; [| exact Hall]. intros b. apply HR.
Qed.


Lemma StronglySorted_filter {A : Type} (R : A -> A -> Prop) (f : A -> bool)
    (l : list A) :
  StronglySorted R l -> StronglySorted R (filter f l).
Proof.
  intros Hs. induction Hs as [|a l Hs IH Hall]; simpl; [constructor |].
  destruct (f a); [| exact IH]. constructor; [exact IH |].
  rewrite Forall_forall in *. intros x Hx. apply Hall.
  apply filter_In in Hx. tauto.
Qed.

Lemma filter_length_perm {A : Type} (P : A -> bool) (l l' : list A) :
  Permutation l l' ->
  List.length (filter P l) = List.length (filter P l').
Proof.
  intros H. induction H as [| x l l' _ IH | x y l | l l' l'' _ IH1 _ IH2];
    simpl.
  - reflexivity.
  - destruct (P x); simpl; now rewrite IH.
  - destruct (P x), (P y); reflexivity.
  - now rewrite IH1.
Qed.

Lemma filter_length_snd {A : Type} (P : nat -> bool) (l : list (A * nat)) :
  List.length (filter (fun cc => P (snd cc)) l)
  = List.length (filter P (map snd l)).
Proof.
  induction l as [|a l IH]; simpl; [reflexivity |].
  destruct (P (snd a)); simpl; now rewrite IH.
Qed.

Lemma map_flat_map {A B C : Type} (f : B -> C) (g : A -> list B) (l : list A) :
  map f (flat_map g l) = flat_map (fun x => map f (g x)) l.
Proof.
  induction l as [|a l IH]; simpl; [reflexivity |].
  now rewrite map_app, IH.
Qed.

Lemma NoDup_map_injective {A B : Type} (f : A -> B) (l : list A) :
  (forall a b, f a = f b -> a = b) -> NoDup l -> NoDup (map f l).
Proof.
  intros Hf Hl. induction Hl as [|a l Ha Hl IH]; simpl; constructor.
  - intros Hin. apply in_map_iff in Hin. destruct Hin as [b [Hb Hin]].
    apply Hf in Hb. now subst.
  - exact IH.
Qed.

Lemma NoDup_tagged {K V W : Type} (tag : K -> V -> W) (f : K -> list V)
    (ys : list K) :
  (forall y v y' v', tag y v = tag y' v' -> y = y' /\ v = v') ->
  NoDup ys ->
  (forall y, NoDup (f y)) ->
  NoDup (flat_map (fun y => map (tag y) (f y)) ys).
Proof.
  intros Hinj Hys Hf. induction Hys as [|y ys Hy Hys IH]; simpl.
  - constructor.
  - apply NoDup_app; [| exact IH |].
    + apply NoDup_map_injective; [| apply Hf].
      intros a b Hab. now apply Hinj in Hab.
    + intros w Hw Hw'. apply in_map_iff in Hw. destruct Hw as [v [<- _]].
      apply in_flat_map in Hw'. destruct Hw' as [y' [Hy' Hw']].
      apply in_map_iff in Hw'. destruct Hw' as [v' [Heq _]].
      apply Hinj in Heq. destruct Heq as [-> _]. contradiction.
Qed.

Lemma mapM_pure {A B : Type} (f : A -> result B) (g : A -> B) (l : list A) :
  (forall a, In a l -> f a = Ok (g a)) -> mapM f l = Ok (map g l).
Proof.
  induction l as [|a l IH]; intros H; [reflexivity |].
  cbn [mapM map]. rewrite (H a (or_introl eq_refl)). cbn [bind Ok].
  rewrite IH; [reflexivity |]. intros b Hb. apply H. now right.
Qed.

(** The distinct values of a non-decreasing list increase. *)
Lemma unique_increasing (l : list Z) :
  StronglySorted Z.le l -> StronglySorted Z.lt (unique Z.eqb l).
Proof.
  intros Hs. induction Hs as [|a l Hs IH Hall]; simpl; constructor.
  - now apply StronglySorted_filter.
  - rewrite Forall_forall in *. intros x Hx.
    apply filter_In in Hx. destruct Hx as [Hx Hne].
    apply (proj1 (unique_In Z.eqb Z.eqb_eq x l)) in Hx.
    specialize (Hall x Hx).
    destruct (Z.eqb_spec a x); [discriminate | lia].
Qed.

Lemma increasing_of_NoDup (l : list Z) :
  StronglySorted Z.le l -> NoDup l -> StronglySorted Z.lt l.
Proof.
  intros Hs. induction Hs as [|a l Hs IH Hall]; intros Hn; constructor.
  - apply IH. now inversion Hn.
  - inversion Hn as [|? ? Ha Hn']; subst.
    rewrite Forall_forall in *. intros x Hx. specialize (Hall x Hx).
    assert (a <> x) by (intros ->; contradiction). lia.
Qed.

(** ** Selection-title formatter *)

(** C10: the title formatter has three branches tried in the order
    all-selected, none-selected, partial.  With [k] selected values out of
    [n] options it returns "All {entity} ({n})" when [k = n],
    "No {entity} (0 out of {n})" when [k = 0] and [n] is not 0, and
    "{k} {entity} out of {n}" otherwise; for journals, 3 of 10 gives
    "3 journals out of 10", 10 of 10 gives "All journals (10)" and 0 of 10
    gives "No journals (0 out of 10)". *)
Theorem new_picker_title_branches :
  forall (entity : string) (picker : select_picker) (values options : list string),
    let k := List.length (picker_value picker) in
    let n := List.length (picker_options picker) in
    (k = n ->
     new_picker_title entity picker values options
     = "All " ++ entity ++ " (" ++ str_of_nat n ++ ")")
    /\ (k = O -> n <> O ->
        new_picker_title entity picker values options
        = "No " ++ entity ++ " (0 out of " ++ str_of_nat n ++ ")")
    /\ (k <> n -> k <> O ->
        new_picker_title entity picker values options
        = str_of_nat k ++ " " ++ entity ++ " out of " ++ str_of_nat n)
    /\ (k = 3%nat -> n = 10%nat ->
        new_picker_title "journals" picker values options
        = "3 journals out of 10")
    /\ (k = 10%nat -> n = 10%nat ->
        new_picker_title "journals" picker values options
        = "All journals (10)")
    /\ (k = O -> n = 10%nat ->
        new_picker_title "journals" picker values options
        = "No journals (0 out of 10)").
Proof.
  intros entity picker values options k n.
  unfold new_picker_title. fold k. fold n.
  repeat split.
  - intros ->. now rewrite Nat.eqb_refl.
  - intros Hk Hn. rewrite Hk.
    destruct (Nat.eqb_spec O n) as [E|_]; [congruence | reflexivity].
  - intros Hkn Hk.
    destruct (Nat.eqb_spec k n) as [E|_]; [contradiction |].
    destruct (Nat.eqb_spec k O) as [E|_]; [contradiction | reflexivity].
  - intros -> ->. reflexivity.
  - intros -> ->. reflexivity.
  - intros -> ->. reflexivity.
Qed.

(** ** The splitting-variable rule *)

Lemma get_countries_with_count_fields (s : state) :
  let s' := snd (get_countries_with_count s) in
  splitting_var s' = splitting_var s
  /\ raw_data s' = raw_data s
  /\ filter_journal s' = filter_journal s
  /\ filter_affiliation_country s' = filter_affiliation_country s
  /\ filter_journal_objects s' = filter_journal_objects s
  /\ filter_affiliation_country_objects s'
     = filter_affiliation_country_objects s
  /\ notifications s' = notifications s
  /\ countries_cache s' = Some (fst (get_countries_with_count s)).
Proof.
  unfold get_countries_with_count.
  destruct (countries_cache s) eqn:E; simpl; repeat split; assumption.
Qed.

(** The counts the rule works with: the memo table when it is filled, the
    counts of the snapshot otherwise. *)
Lemma get_countries_with_count_fst (s : state) :
  fst (get_countries_with_count s)
  = match countries_cache s with
    | Some d => d
    | None => count_countries (map affiliation_country (raw_data s))
    end.
Proof. unfold get_countries_with_count. now destruct (countries_cache s). Qed.

Lemma did_change_splitting_var_None (s : state) :
  splitting_var s = SV_None ->
  did_change_splitting_var s
  = Ok (notify notif_none
          (set_filter_affiliation_country
             (filter_affiliation_country_objects s)
             (set_filter_journal (filter_journal_objects s) s))).
Proof.
  intros Hs. unfold did_change_splitting_var.
  rewrite Hs. simpl. rewrite Hs. simpl. rewrite Hs. reflexivity.
Qed.

Lemma did_change_splitting_var_journal (s : state) :
  splitting_var s = SV_journal ->
  did_change_splitting_var s
  = Ok (notify notif_journal
          (set_filter_affiliation_country
             (filter_affiliation_country_objects s)
             (set_filter_journal
                (firstn 10 (map fst (value_counts (map journal (raw_data s)))))
                s))).
Proof.
  intros Hs. unfold did_change_splitting_var.
  rewrite Hs. cbn [splitting_eqb splitting_var set_filter_journal].
  rewrite Hs. cbn [splitting_eqb bind Ok set_filter_affiliation_country
                     splitting_var set_filter_journal].
  rewrite Hs. reflexivity.
Qed.

(** The country branch of the rule, in terms of the candidates. *)
Lemma did_change_splitting_var_country (s : state) :
  splitting_var s = SV_affiliation_country ->
  did_change_splitting_var s =
  match nth_error (qualifying_counts s) 10 with
  | None => Raise IndexError
  | Some top_10_min =>
      Ok (notify notif_country
            (set_filter_affiliation_country
               (map fst
                  (filter (fun cc => Nat.leb top_10_min (snd cc))
                     (qualifying_countries s)))
               (snd (get_countries_with_count
                       (set_filter_journal (filter_journal_objects s) s)))))
  end.
Proof.
  intros Hs. unfold did_change_splitting_var, qualifying_counts,
    qualifying_countries.
  rewrite Hs. simpl.
  unfold get_countries_with_count. simpl.
  destruct (countries_cache s) as [d|]; simpl; rewrite ?Hs; simpl;
    match goal with
    | |- context [from_option IndexError ?m] => destruct m
    end; simpl; rewrite ?Hs; reflexivity.
Qed.

Lemma did_change_splitting_var_not_spec_error (s : state) :
  did_change_splitting_var s <> Raise InsufficientDataError.
Proof.
  unfold did_change_splitting_var.
  destruct (splitting_var s) eqn:Hs; simpl;
    try discriminate.
  all: unfold get_countries_with_count; simpl;
    destruct (countries_cache s); simpl; rewrite ?Hs; simpl;
    try match goal with
        | |- context [from_option IndexError ?m] => destruct m
        end; simpl; rewrite ?Hs; simpl; discriminate.
Qed.

(** C8: switching the splitting variable from journal to None resets the
    journal selection to the whole journal universe and the country selection
    to the whole country universe, and emits exactly one notification,
    "No more splitting. Filters reset to default". *)
Theorem journal_to_None_resets :
  forall s : state,
    splitting_var s = SV_journal ->
    exists s' : state,
      assign_splitting_var SV_None s = Ok s'
      /\ splitting_var s' = SV_None
      /\ filter_journal s' = filter_journal_objects s
      /\ filter_affiliation_country s' = filter_affiliation_country_objects s
      /\ filter_journal_objects s' = filter_journal_objects s
      /\ filter_affiliation_country_objects s'
         = filter_affiliation_country_objects s
      /\ notifications s'
         = (notifications s
            ++ ["No more splitting. Filters reset to default"])%list.
Proof.
  intros s Hs. unfold assign_splitting_var. rewrite Hs. simpl.
  eexists. split; [reflexivity |]. simpl. repeat split.
Qed.

Lemma journal_to_None_resets_witness :
  exists s' : state,
    assign_splitting_var SV_None
      (set_filter_journal ["J1"] (set_splitting_var SV_journal (loaded three_papers)))
    = Ok s'
    /\ filter_journal s' = ["J1"; "J2"]
    /\ filter_affiliation_country s' = ["US"; "FR"].
Proof.
  destruct (journal_to_None_resets
              (set_filter_journal ["J1"]
                 (set_splitting_var SV_journal (loaded three_papers)))
              eq_refl)
    as [s' [H1 [_ [H2 [H3 _]]]]].
  exists s'. split; [exact H1 |]. split; [exact H2 | exact H3].
Defined.

(** ** The country default *)

(** The claim of C4 fails on a snapshot with two countries: the rule raises
    the [IndexError] of the lookup, not [InsufficientDataError]. *)
Lemma few_countries_not_InsufficientDataError :
  let s := set_splitting_var SV_affiliation_country (loaded three_papers) in
  splitting_var s = SV_affiliation_country
  /\ (List.length (qualifying_countries s) < 11)%nat
  /\ did_change_splitting_var s = Raise IndexError
  /\ did_change_splitting_var s <> Raise InsufficientDataError.
Proof.
  simpl. split; [reflexivity |]. split; [vm_compute; lia |].
  split; [reflexivity | discriminate].
Qed.

(** C4, as the code has it: when the splitting variable becomes
    affiliation_country and fewer than 11 countries occur more than 10 times,
    the rule fails with the [IndexError] of the fixed-index lookup itself, and
    only then; no check precedes the lookup and [InsufficientDataError] is
    never raised. *)
Theorem few_countries_IndexError :
  forall s : state,
    splitting_var s = SV_affiliation_country ->
    ((List.length (qualifying_countries s) < 11)%nat <->
     did_change_splitting_var s = Raise IndexError)
    /\ did_change_splitting_var s <> Raise InsufficientDataError.
Proof.
  intros s Hs. split; [| apply did_change_splitting_var_not_spec_error].
  rewrite (did_change_splitting_var_country s Hs).
  assert (Hlen : List.length (qualifying_counts s)
                 = List.length (qualifying_countries s)).
  { unfold qualifying_counts. rewrite py_sorted_length. apply length_map. }
  destruct (nth_error (qualifying_counts s) 10) eqn:E.
  - split; [| discriminate].
    intros Hlt. exfalso.
    assert (nth_error (qualifying_counts s) 10 <> None) as Hn by congruence.
    apply nth_error_Some in Hn. lia.
  - split; [reflexivity |]. intros _.
    apply nth_error_None in E. lia.
Qed.

Lemma few_countries_IndexError_witness :
  did_change_splitting_var
    (set_splitting_var SV_affiliation_country (loaded three_papers))
  = Raise IndexError.
Proof.
  apply (few_countries_IndexError
           (set_splitting_var SV_affiliation_country (loaded three_papers))
           eq_refl).
  vm_compute. lia.
Defined.

(** Whenever the country branch of the rule succeeds it selects at least
    eleven countries: the count it compares with is the eleventh of the
    decreasing counts. *)
Lemma country_default_at_least_eleven (s s' : state) :
  splitting_var s = SV_affiliation_country ->
  did_change_splitting_var s = Ok s' ->
  (11 <= List.length (filter_affiliation_country s'))%nat.
Proof.
  intros Hs. rewrite (did_change_splitting_var_country s Hs).
  destruct (nth_error (qualifying_counts s) 10) as [top|] eqn:E;
    [| discriminate].
  intros H. injection H as <-.
  cbn [filter_affiliation_country notify set_filter_affiliation_country].
  rewrite length_map, (filter_length_snd (fun c => Nat.leb top c)).
  rewrite <- (filter_length_perm _ _ _
                (py_sorted_perm (fun a b => Nat.leb b a)
                   (map snd (qualifying_countries s)))).
  fold (qualifying_counts s).
  assert (Hsorted : StronglySorted (leb_rel (fun a b => Nat.leb b a))
                      (qualifying_counts s)).
  { apply py_sorted_sorted; intros.
    - destruct (Nat.leb_spec b a); [now left | right; apply Nat.leb_le; lia].
    - apply Nat.leb_le in H, H0. apply Nat.leb_le. lia. }
  apply nth_error_split in E. destruct E as [l1 [l2 [Hc Hlen]]].
  rewrite Hc in *. rewrite filter_app, length_app.
  rewrite filter_all.
  - cbn [filter]. rewrite Nat.leb_refl. cbn [List.length]. lia.
  - intros x Hx.
    exact (StronglySorted_app_le _ _ _ Hsorted x top Hx (or_introl eq_refl)).
Qed.

(** C2 at a snapshot of eleven countries counted 21, 20, ..., 11: the
    10th-largest count is 12 and ten countries reach it, but the rule reads
    the count at index 10, which is 11, and selects all eleven countries. *)
Theorem country_default_reads_eleventh_count :
  let s := set_splitting_var SV_affiliation_country (loaded eleven_countries) in
  qualifying_counts s
  = [21; 20; 19; 18; 17; 16; 15; 14; 13; 12; 11]%nat
  /\ spec_country_default s
     = Some ["A"; "B"; "C"; "D"; "E"; "F"; "G"; "H"; "I"; "J"]
  /\ dict_get "K" (qualifying_countries s) = Some 11%nat
  /\ exists s',
       did_change_splitting_var s = Ok s'
       /\ filter_affiliation_country s'
          = ["A"; "B"; "C"; "D"; "E"; "F"; "G"; "H"; "I"; "J"; "K"].
Proof.
  cbv zeta. split; [| split; [| split]].
  - vm_compute. reflexivity.
  - vm_compute. reflexivity.
  - vm_compute. reflexivity.
  - eexists. split; vm_compute; reflexivity.
Qed.

(** ** The journal default *)

(** The journals of the frequency table, most frequent first. *)
Lemma value_counts_index (l : list string) :
  map fst (value_counts l)
  = py_sorted
      (fun a b =>
         Nat.leb (count_eq String.eqb b l) (count_eq String.eqb a l))
      (unique String.eqb l).
Proof.
  unfold value_counts.
  rewrite (py_sorted_map (fun v => (v, count_eq String.eqb v l))
             (fun a b => Nat.leb (snd b) (snd a))).
  rewrite map_map. cbn [fst snd]. apply map_id.
Qed.




(** ** The extraction-tool rule *)

(** The state the rule builds before it assigns the splitting variable. *)
Lemma did_change_extraction_tool_unfold (now_year : Z) (s : state) :
  did_change_extraction_tool now_year s =
  match dict_get (extraction_tool s) (datasets s) with
  | None => Raise KeyError
  | Some raw =>
      if String.eqb (extraction_tool s) "RTransparent" then
        let d := match countries_cache s with
                 | Some d => d
                 | None => count_countries (map affiliation_country raw)
                 end in
        assign_splitting_var SV_None
          (mk_state (datasets s) (extraction_tool s) raw
             ["Data Sharing (%)"; "Data Sharing"; "Code Sharing (%)";
              "Code Sharing"]
             "Data Sharing (%)"
             [SV_None; SV_journal; SV_affiliation_country;
              SV_fund_pmc_institute]
             (splitting_var s)
             (Some (year_min raw, Some now_year))
             (Some (year_min raw, year_max raw))
             (Some (year_min raw, year_max raw))
             (unique String.eqb (map journal raw))
             (filter_journal s)
             (py_sorted
                (fun a b => Nat.leb (country_sorter d b) (country_sorter d a))
                (dict_keys d))
             (filter_affiliation_country s)
             (Some d)
             (notifications s))
      else Raise KeyError
  end.
Proof.
  unfold did_change_extraction_tool.
  destruct s as [ds tool raw mobjs m svobjs sv pb pd p jobjs j cobjs c cache ns].
  cbn [datasets extraction_tool].
  destruct (dict_get tool ds) as [raw'|]; [| reflexivity].
  unfold extraction_tools_params.
  cbn [dict_get from_option bind Ok extraction_tool set_raw_data].
  destruct (String.eqb tool "RTransparent"); [| reflexivity].
  destruct cache as [d|]; reflexivity.
Qed.


Lemma did_change_extraction_tool_twice (now_year : Z) (s s1 : state) :
  did_change_extraction_tool now_year s = Ok s1 ->
  exists s2,
    did_change_extraction_tool now_year s1 = Ok s2
    /\ derived_state s2 = derived_state s1
    /\ raw_data s2 = raw_data s1
    /\ countries_cache s2 = countries_cache s1
    /\ notifications s2 = notifications s1.
Proof.
  rewrite !did_change_extraction_tool_unfold.
  destruct (dict_get (extraction_tool s) (datasets s)) as [raw|] eqn:Eds;
    [| discriminate].
  destruct (String.eqb (extraction_tool s) "RTransparent") eqn:Etool;
    [| discriminate].
  cbv zeta. unfold assign_splitting_var at 1.
  cbn [splitting_var].
  destruct (splitting_eqb SV_None (splitting_var s)) eqn:Esv.
  - intros H. injection H as <-.
    cbn [datasets extraction_tool countries_cache].
    rewrite Eds, Etool. unfold assign_splitting_var.
    cbn [splitting_var]. rewrite Esv.
    eexists. split; [reflexivity |]. repeat split.
  - rewrite did_change_splitting_var_None by reflexivity.
    intros H. injection H as <-.
    cbn [datasets extraction_tool countries_cache notify
           set_filter_affiliation_country set_filter_journal set_splitting_var].
    rewrite Eds, Etool. unfold assign_splitting_var.
    cbn [splitting_var splitting_eqb].
    eexists. split; [reflexivity |]. repeat split.
Qed.

(** The journal universe the extraction-tool rule leaves is the list of the
    distinct journals of the snapshot it loaded. *)
Lemma extraction_tool_journal_universe (now_year : Z) (s s1 : state) :
  did_change_extraction_tool now_year s = Ok s1 ->
  filter_journal_objects s1 = unique String.eqb (map journal (raw_data s1)).
Proof.
  rewrite did_change_extraction_tool_unfold.
  destruct (dict_get (extraction_tool s) (datasets s)) as [raw|];
    [| discriminate].
  destruct (String.eqb (extraction_tool s) "RTransparent"); [| discriminate].
  cbv zeta. unfold assign_splitting_var. cbn [splitting_var].
  destruct (splitting_eqb SV_None (splitting_var s)).
  - intros H. injection H as <-. reflexivity.
  - rewrite did_change_splitting_var_None by reflexivity.
    intros H. injection H as <-. reflexivity.
Qed.

(** C9: running the extraction-tool rule again on the state it produced,
    with the same source, the same snapshot and the same calendar year,
    succeeds and leaves the derived state as the first run left it: the metric
    catalog and the selected metric, the bounds, default and value of the date
    range, the journal and country universes, the splitting variable and its
    objects, and the journal and country selections. *)
Theorem extraction_tool_rule_idempotent :
  forall (now_year : Z) (s s1 : state),
    did_change_extraction_tool now_year s = Ok s1 ->
    exists s2 : state,
      did_change_extraction_tool now_year s1 = Ok s2
      /\ metrics_objects s2 = metrics_objects s1
      /\ metrics s2 = metrics s1
      /\ filter_pubdate_bounds s2 = filter_pubdate_bounds s1
      /\ filter_pubdate_default s2 = filter_pubdate_default s1
      /\ filter_pubdate s2 = filter_pubdate s1
      /\ filter_journal_objects s2 = filter_journal_objects s1
      /\ filter_affiliation_country_objects s2
         = filter_affiliation_country_objects s1
      /\ splitting_var_objects s2 = splitting_var_objects s1
      /\ splitting_var s2 = splitting_var s1
      /\ filter_journal s2 = filter_journal s1
      /\ filter_affiliation_country s2 = filter_affiliation_country s1.
Proof.
  intros now_year s s1 H.
  destruct (did_change_extraction_tool_twice now_year s s1 H)
    as [s2 [H2 [Hd _]]].
  exists s2. split; [exact H2 |].
  unfold derived_state in Hd. injection Hd as -> -> -> -> -> -> -> -> -> -> ->.
  repeat split.
Qed.

Lemma extraction_tool_rule_idempotent_witness :
  exists s2 : state,
    did_change_extraction_tool 2024 (loaded three_papers) = Ok s2
    /\ filter_journal s2 = filter_journal (loaded three_papers).
Proof.
  destruct (extraction_tool_rule_idempotent 2024 (dashboard_on three_papers)
              (loaded three_papers))
    as [s2 [H2 H]].
  - vm_compute. reflexivity.
  - exists s2. split; [exact H2 |]. apply H.
Defined.

(** ** Filtering *)

Lemma aggretations_ok : exists aggs, aggretations = Ok aggs.
Proof. eexists. reflexivity. Qed.

(** The rows the filters leave are those that pass the three criteria. *)
Lemma filtered_df_passes (s : state) :
  numeric_range s ->
  filtered_df s =
  Ok (filter
        (fun r => passes_journal s r && passes_pubdate s r && passes_country s r)
        (raw_data s)).
Proof.
  unfold numeric_range, filtered_df, passes_journal, passes_pubdate,
    passes_country, journal_clauses, pubdate_clauses, int_ne_list.
  intros Hnum.
  destruct (filter_pubdate s) as [[[lo|] [hi|]]|]; try contradiction;
    simpl; unfold query; simpl;
    destruct (negb _); simpl; f_equal.
  - rewrite filter_twice. apply filter_ext. intros r.
    now rewrite !andb_true_r.
  - apply filter_ext. intros r. now rewrite !andb_true_r.
  - rewrite filter_twice. apply filter_ext. intros r.
    now rewrite !andb_true_r.
  - apply filter_ext. intros r. now rewrite !andb_true_r.
Qed.



(** The frame on the filtered rows, for a configured splitting variable. *)
Lemma filtered_grouped_data_rows (s : state) :
  configured (splitting_var s) ->
  numeric_range s ->
  exists aggs df,
    aggretations = Ok aggs
    /\ filtered_df s = Ok df
    /\ filtered_grouped_data s =
       Ok (mk_frame (dict_keys aggs)
             (match splitting_var s with
              | SV_None => groupby_year aggs df
              | v => groupby_year_split v aggs df
              end)).
Proof.
  intros Hc Hn. destruct aggretations_ok as [aggs Ha].
  exists aggs. eexists. split; [exact Ha |].
  split; [apply (filtered_df_passes s Hn) |].
  unfold filtered_grouped_data. rewrite (filtered_df_passes s Hn), Ha.
  unfold bind, Ok. unfold configured in Hc.
  destruct (splitting_var s); try reflexivity. congruence.
Qed.

Lemma groupby_nil (v : splitting) aggs :
  groupby_year aggs [] = [] /\ groupby_year_split v aggs [] = [].
Proof. split; reflexivity. Qed.








(** ** Groups of the aggregated frame *)

Lemma tuple_eqb_eq (a b : list string) : tuple_eqb a b = true <-> a = b.
Proof.
  revert b. induction a as [|x a IH]; intros [|y b]; simpl;
    try (split; [discriminate | discriminate]); [tauto |].
  rewrite andb_true_iff, String.eqb_eq, IH.
  split; [intros [-> ->]; reflexivity | intros H; now injection H].
Qed.

Lemma cell_eqb_eq (a b : cell) : cell_eqb a b = true <-> a = b.
Proof.
  destruct a as [x|x], b as [y|y]; simpl;
    try (split; [discriminate | discriminate]).
  - rewrite String.eqb_eq. split; [now intros -> | intros H; now injection H].
  - rewrite tuple_eqb_eq. split; [now intros -> | intros H; now injection H].
Qed.

Lemma opt_cell_eqb_Some (c : option cell) (k : cell) :
  opt_cell_eqb c (Some k) = true <-> c = Some k.
Proof.
  destruct c as [k'|]; simpl; [| split; discriminate].
  rewrite cell_eqb_eq. split; [now intros -> | intros H; now injection H].
Qed.

Lemma years_sorted_In (y : Z) (ys : list Z) : In y (years_sorted ys) <-> In y ys.
Proof.
  unfold years_sorted. rewrite py_sorted_In.
  apply (unique_In Z.eqb Z.eqb_eq).
Qed.

Lemma years_sorted_NoDup (ys : list Z) : NoDup (years_sorted ys).
Proof. apply py_sorted_NoDup, (unique_NoDup Z.eqb Z.eqb_eq). Qed.

Lemma years_sorted_increasing (ys : list Z) :
  StronglySorted Z.lt (years_sorted ys).
Proof.
  apply increasing_of_NoDup; [| apply years_sorted_NoDup].
  unfold years_sorted.
  eapply StronglySorted_weaken;
    [| apply (py_sorted_sorted Z.leb)].
  - intros a b Hab. now apply Z.leb_le.
  - intros a b. destruct (Z.leb_spec a b); [now left |].
    right. apply Z.leb_le. lia.
  - intros a b c Hab Hbc. apply Z.leb_le in Hab, Hbc. apply Z.leb_le. lia.
Qed.

Lemma split_cells_In (v : splitting) (k : cell) (g : list record) :
  In k (split_cells v g) <-> exists r, In r g /\ split_cell v r = Some k.
Proof.
  unfold split_cells. rewrite in_flat_map. split.
  - intros [r [Hr Hk]]. exists r. split; [assumption |].
    destruct (split_cell v r) as [k'|]; [| contradiction].
    destruct Hk as [-> | []]. reflexivity.
  - intros [r [Hr Hk]]. exists r. split; [assumption |].
    rewrite Hk. now left.
Qed.

Lemma year_cells_In (v : splitting) (df : list record) (y : Z) (k : cell) :
  In k (year_cells v df y)
  <-> exists r, In r df /\ year r = y /\ split_cell v r = Some k.
Proof.
  unfold year_cells.
  rewrite py_sorted_In, (unique_In cell_eqb cell_eqb_eq), split_cells_In.
  split; intros [r [Hr Hk]]; exists r.
  - apply filter_In in Hr. destruct Hr as [Hr Hy]. apply Z.eqb_eq in Hy. tauto.
  - destruct Hk as [Hy Hk]. split; [| assumption].
    apply filter_In. split; [assumption | now apply Z.eqb_eq].
Qed.

Lemma year_cells_NoDup (v : splitting) (df : list record) (y : Z) :
  NoDup (year_cells v df y).
Proof. apply py_sorted_NoDup, (unique_NoDup cell_eqb cell_eqb_eq). Qed.

Lemma groupby_year_groups aggs (df : list record) :
  map row_group (groupby_year aggs df)
  = map (fun y => (y, None)) (years_sorted (map year df)).
Proof. unfold groupby_year. rewrite map_map. reflexivity. Qed.

Lemma groupby_year_split_groups (v : splitting) aggs (df : list record) :
  map row_group (groupby_year_split v aggs df)
  = flat_map (fun y => map (fun k => (y, Some k)) (year_cells v df y))
      (years_sorted (map year df)).
Proof.
  unfold groupby_year_split. rewrite map_flat_map.
  apply flat_map_ext. intros y. rewrite map_map. reflexivity.
Qed.

Lemma groupby_year_years aggs (df : list record) :
  map row_year (groupby_year aggs df) = years_sorted (map year df).
Proof. unfold groupby_year. rewrite map_map. apply map_id. Qed.

(** Blocks of equal years, one block per year in increasing order. *)
Lemma year_blocks_sorted {X : Type} (f : Z -> list X) (ys : list Z) :
  StronglySorted Z.lt ys ->
  StronglySorted Z.le (flat_map (fun y => map (fun _ => y) (f y)) ys).
Proof.
  intros Hs. induction Hs as [|y ys Hs IH Hall]; simpl; [constructor |].
  apply StronglySorted_app; [| exact IH |].
  - induction (f y) as [|x l IHl]; simpl; constructor; [exact IHl |].
    apply Forall_forall. intros z Hz. apply in_map_iff in Hz.
    destruct Hz as [_ [<- _]]. lia.
  - intros a b Ha Hb. apply in_map_iff in Ha. destruct Ha as [_ [<- _]].
    apply in_flat_map in Hb. destruct Hb as [y' [Hy' Hb]].
    apply in_map_iff in Hb. destruct Hb as [_ [<- _]].
    rewrite Forall_forall in Hall. specialize (Hall y' Hy'). lia.
Qed.

Lemma groupby_year_split_years (v : splitting) aggs (df : list record) :
  StronglySorted Z.le (map row_year (groupby_year_split v aggs df)).
Proof.
  unfold groupby_year_split. rewrite map_flat_map.
  erewrite flat_map_ext.
  - apply (year_blocks_sorted (year_cells v df)), years_sorted_increasing.
  - intros y. rewrite map_map. reflexivity.
Qed.

Lemma groupby_year_exact aggs (df : list record) :
  NoDup (map row_group (groupby_year aggs df))
  /\ forall g,
       In g (map row_group (groupby_year aggs df))
       <-> exists r, In r df /\ group_of SV_None r = Some g.
Proof.
  rewrite groupby_year_groups. split.
  - apply NoDup_map_injective; [| apply years_sorted_NoDup].
    intros a b Hab. now injection Hab.
  - intros g. rewrite in_map_iff. split.
    + intros [y [<- Hy]]. apply years_sorted_In, in_map_iff in Hy.
      destruct Hy as [r [<- Hr]]. exists r. split; [assumption | reflexivity].
    + intros [r [Hr Hg]]. simpl in Hg. injection Hg as <-.
      exists (year r). split; [reflexivity |].
      apply years_sorted_In. now apply in_map.
Qed.

Lemma groupby_year_split_exact (v : splitting) aggs (df : list record) :
  v <> SV_None ->
  NoDup (map row_group (groupby_year_split v aggs df))
  /\ forall g,
       In g (map row_group (groupby_year_split v aggs df))
       <-> exists r, In r df /\ group_of v r = Some g.
Proof.
  intros Hv. rewrite groupby_year_split_groups. split.
  - apply (NoDup_tagged (fun y k => (y, Some k))).
    + intros y k y' k' H. now injection H.
    + apply years_sorted_NoDup.
    + intros y. apply year_cells_NoDup.
  - intros g. rewrite in_flat_map.
    assert (Hgroup : forall r,
               group_of v r
               = match split_cell v r with
                 | Some k => Some (year r, Some k)
                 | None => None
                 end).
    { intros r. destruct v; try reflexivity. congruence. }
    split.
    + intros [y [_ Hg]]. apply in_map_iff in Hg. destruct Hg as [k [<- Hk]].
      apply year_cells_In in Hk. destruct Hk as [r [Hr [<- Hk]]].
      exists r. split; [assumption |]. now rewrite Hgroup, Hk.
    + intros [r [Hr Hg]]. rewrite Hgroup in Hg.
      destruct (split_cell v r) as [k|] eqn:Hk; [| discriminate].
      injection Hg as <-. exists (year r). split.
      * apply years_sorted_In. now apply in_map.
      * apply in_map_iff. exists k. split; [reflexivity |].
        apply year_cells_In. exists r. tauto.
Qed.

Lemma group_of_defined (v : splitting) (r : record) :
  configured v ->
  affiliation_country r <> None ->
  exists g, group_of v r = Some g.
Proof.
  unfold configured. intros Hv Hc.
  destruct v; simpl; try (eexists; reflexivity); [congruence |].
  destruct (affiliation_country r); [eexists; reflexivity | congruence].
Qed.

(** C6: for a configured splitting variable and a numeric date range the
    aggregated frame has exactly one row per group, a year or a year and
    split value, that the filtered rows fall in: every row stands for a group
    at least one filtered row falls in, no group appears twice, every filtered
    row of a normalized snapshot finds the row of its group, and no filtered
    rows give no rows. *)
Theorem aggregated_groups_exact :
  forall s : state,
    configured (splitting_var s) ->
    numeric_range s ->
    exists (filtered : list record) (df : frame),
      filtered_df s = Ok filtered
      /\ filtered_grouped_data s = Ok df
      /\ NoDup (map row_group (rows df))
      /\ (forall g,
             In g (map row_group (rows df))
             <-> exists r, In r filtered
                           /\ group_of (splitting_var s) r = Some g)
      /\ (normalized (raw_data s) ->
          forall r, In r filtered ->
                    exists row, In row (rows df)
                                /\ group_of (splitting_var s) r
                                   = Some (row_group row))
      /\ (filtered = [] -> rows df = []).
Proof.
  intros s Hc Hn.
  destruct (filtered_grouped_data_rows s Hc Hn)
    as [aggs [filtered [_ [Hfl Hg]]]].
  exists filtered. eexists. split; [exact Hfl |]. split; [exact Hg |].
  cbn [rows].
  set (rs := match splitting_var s with
             | SV_None => groupby_year aggs filtered
             | v => groupby_year_split v aggs filtered
             end).
  assert (Hexact :
            NoDup (map row_group rs)
            /\ forall g,
                 In g (map row_group rs)
                 <-> exists r, In r filtered
                               /\ group_of (splitting_var s) r = Some g).
  { unfold rs. unfold configured in Hc.
    destruct (splitting_var s);
      first [ congruence
            | apply groupby_year_exact
            | apply groupby_year_split_exact; discriminate ]. }
  destruct Hexact as [Hnodup Hiff].
  split; [exact Hnodup |]. split; [exact Hiff |]. split.
  - intros Hnorm r Hr.
    assert (Hraw : In r (raw_data s)).
    { rewrite (filtered_df_passes s Hn) in Hfl. injection Hfl as <-.
      apply filter_In in Hr. tauto. }
    destruct (group_of_defined (splitting_var s) r Hc (Hnorm r Hraw))
      as [g Hgr].
    assert (Hin : In g (map row_group rs))
      by (apply Hiff; exists r; tauto).
    apply in_map_iff in Hin. destruct Hin as [row [<- Hrow]].
    exists row. tauto.
  - intros ->. unfold rs. destruct (splitting_var s); reflexivity.
Qed.

Lemma aggregated_groups_exact_witness :
  exists df : frame,
    filtered_grouped_data (loaded three_papers) = Ok df
    /\ NoDup (map row_group (rows df)).
Proof.
  destruct (aggregated_groups_exact (loaded three_papers))
    as [filtered [df [_ [Hdf [Hnodup _]]]]].
  - unfold configured. vm_compute. discriminate.
  - vm_compute. exact I.
  - exists df. split; [exact Hdf | exact Hnodup].
Defined.

(** ** The chart *)

Lemma catalog_metric (title : string) :
  In title catalog ->
  exists raw_metric,
    dict_get title metrics_by_title = Some raw_metric
    /\ forall aggs, aggretations = Ok aggs ->
                    mem String.eqb raw_metric (dict_keys aggs) = true.
Proof.
  unfold catalog. intros [<- | [<- | [<- | [<- | []]]]];
    eexists; (split; [vm_compute; reflexivity |]);
    intros aggs Ha; vm_compute in Ha; injection Ha as <-; reflexivity.
Qed.

(** The configuration the chart builder assigns, for a catalog metric, a
    numeric date range and a splitting variable that has a filter. *)
Lemma updated_echart_plot_config (s : state) (lo hi : Z) :
  filter_pubdate s = Some (Some lo, Some hi) ->
  In (metrics s) catalog ->
  In (splitting_var s) [SV_None; SV_journal; SV_affiliation_country] ->
  exists df raw_metric title legend,
    filtered_grouped_data s = Ok df
    /\ dict_get (metrics s) metrics_by_title = Some raw_metric
    /\ updated_echart_plot s
       = Ok (Some
               (mk_echarts_config title legend
                  (unique Z.eqb (map row_year (rows df)))
                  (chart_series s df raw_metric))).
Proof.
  intros Hp Hm Hv.
  assert (Hc : configured (splitting_var s)).
  { unfold configured. intros E. rewrite E in Hv. simpl in Hv.
    intuition discriminate. }
  assert (Hn : numeric_range s) by (unfold numeric_range; now rewrite Hp).
  destruct (filtered_grouped_data_rows s Hc Hn) as [aggs [fl [Ha [_ Hg]]]].
  destruct (catalog_metric _ Hm) as [raw_metric [Hraw Hcol]].
  specialize (Hcol aggs Ha).
  unfold updated_echart_plot. rewrite Hp, Hg, Hraw.
  cbn [bind Ok from_option].
  set (df := mk_frame _ _).
  assert (Hfc : frame_column raw_metric df
                = Ok (map (cell_value raw_metric) (rows df))).
  { unfold frame_column. subst df. cbn [columns]. now rewrite Hcol. }
  exists df, raw_metric. unfold chart_series, series_rows, split_filter.
  destruct Hv as [Hv | [Hv | [Hv | []]]]; rewrite <- Hv in *;
    cbn [splitting_eqb bind Ok].
  - rewrite Hfc. cbn [bind Ok from_option]. do 2 eexists.
    split; [reflexivity |]. split; reflexivity.
  - erewrite mapM_pure.
    2:{ intros item _. rewrite Hfc. cbn [bind Ok]. reflexivity. }
    cbn [bind Ok from_option]. do 2 eexists.
    split; [reflexivity |]. split; reflexivity.
  - erewrite mapM_pure.
    2:{ intros item _. rewrite Hfc. cbn [bind Ok]. reflexivity. }
    cbn [bind Ok from_option]. do 2 eexists.
    split; [reflexivity |]. split; reflexivity.
Qed.

Lemma aggregated_years_sorted (s : state) (df : frame) :
  filtered_grouped_data s = Ok df ->
  StronglySorted Z.le (map row_year (rows df))
  /\ (splitting_var s = SV_None -> NoDup (map row_year (rows df))).
Proof.
  unfold filtered_grouped_data.
  destruct (filtered_df s) as [e|fl]; [discriminate |].
  destruct aggretations_ok as [aggs ->]. cbn [bind Ok].
  destruct (splitting_var s) eqn:Hv; intros H; try discriminate;
    injection H as <-; cbn [rows];
    (split; [| try discriminate]);
    try apply groupby_year_split_years.
  - rewrite groupby_year_years.
    eapply StronglySorted_weaken; [| apply years_sorted_increasing].
    intros a b. lia.
  - intros _. rewrite groupby_year_years. apply years_sorted_NoDup.
Qed.




(** ** Outcomes of the extraction-tool rule *)



Lemma fold_min_le (t : list Z) (y : Z) :
  fold_left Z.min t y <= y
  /\ (forall x, In x t -> fold_left Z.min t y <= x)
  /\ (fold_left Z.min t y = y \/ In (fold_left Z.min t y) t).
Proof.
  revert y. induction t as [|a t IH]; intros y; simpl.
  - split; [lia |]. split; [intros x [] | now left].
  - destruct (IH (Z.min y a)) as [H1 [H2 H3]].
    split; [lia |]. split.
    + intros x [<- | Hx]; [lia | now apply H2].
    + destruct H3 as [H3 | H3]; [| now right; right].
      destruct (Z.min_spec y a) as [[_ E] | [_ E]]; rewrite E in *.
      * now left.
      * right. left. now rewrite H3.
Qed.

Lemma fold_max_ge (t : list Z) (y : Z) :
  y <= fold_left Z.max t y
  /\ (forall x, In x t -> x <= fold_left Z.max t y)
  /\ (fold_left Z.max t y = y \/ In (fold_left Z.max t y) t).
Proof.
  revert y. induction t as [|a t IH]; intros y; simpl.
  - split; [lia |]. split; [intros x [] | now left].
  - destruct (IH (Z.max y a)) as [H1 [H2 H3]].
    split; [lia |]. split.
    + intros x [<- | Hx]; [lia | now apply H2].
    + destruct H3 as [H3 | H3]; [| now right; right].
      destruct (Z.max_spec y a) as [[_ E] | [_ E]]; rewrite E in *.
      * right. left. now rewrite H3.
      * now left.
Qed.

Lemma year_min_max_spec (df : list record) :
  df <> [] ->
  exists lo hi,
    year_min df = Some lo /\ year_max df = Some hi
    /\ (forall r, In r df -> lo <= year r <= hi)
    /\ (exists r, In r df /\ year r = lo)
    /\ (exists r, In r df /\ year r = hi).
Proof.
  destruct df as [|r0 t]; [congruence |]. intros _.
  unfold year_min, year_max. cbn [map].
  destruct (fold_min_le (map year t) (year r0)) as [A1 [A2 A3]].
  destruct (fold_max_ge (map year t) (year r0)) as [B1 [B2 B3]].
  do 2 eexists. split; [reflexivity |]. split; [reflexivity |].
  split; [| split].
  - intros r [<- | Hr]; [lia |].
    specialize (A2 (year r) (in_map year _ _ Hr)).
    specialize (B2 (year r) (in_map year _ _ Hr)). lia.
  - destruct A3 as [E | Hin].
    + exists r0. split; [now left | now rewrite E].
    + apply in_map_iff in Hin. destruct Hin as [r [E Hr]].
      exists r. split; [now right | exact E].
  - destruct B3 as [E | Hin].
    + exists r0. split; [now left | now rewrite E].
    + apply in_map_iff in Hin. destruct Hin as [r [E Hr]].
      exists r. split; [now right | exact E].
Qed.

(** What the rule leaves in the fields it derives. *)
Lemma did_change_extraction_tool_fields (now_year : Z) (s s1 : state) :
  did_change_extraction_tool now_year s = Ok s1 ->
  let d := match countries_cache s with
           | Some d => d
           | None => count_countries (map affiliation_country (raw_data s1))
           end in
  dict_get (extraction_tool s) (datasets s) = Some (raw_data s1)
  /\ filter_pubdate_bounds s1
     = Some (year_min (raw_data s1), Some now_year)
  /\ filter_pubdate_default s1
     = Some (year_min (raw_data s1), year_max (raw_data s1))
  /\ filter_pubdate s1
     = Some (year_min (raw_data s1), year_max (raw_data s1))
  /\ filter_affiliation_country_objects s1
     = py_sorted
         (fun a b => Nat.leb (country_sorter d b) (country_sorter d a))
         (dict_keys d)
  /\ countries_cache s1 = Some d
  /\ splitting_var s1 = SV_None.
Proof.
  rewrite did_change_extraction_tool_unfold.
  destruct (dict_get (extraction_tool s) (datasets s)) as [raw|];
    [| discriminate].
  destruct (String.eqb (extraction_tool s) "RTransparent"); [| discriminate].
  cbv zeta. unfold assign_splitting_var. cbn [splitting_var].
  destruct (splitting_eqb SV_None (splitting_var s)) eqn:E.
  - intros H. injection H as <-. cbn.
    repeat split. destruct (splitting_var s); try discriminate. reflexivity.
  - rewrite did_change_splitting_var_None by reflexivity.
    intros H. injection H as <-. cbn. repeat split.
Qed.

(** X2: after the extraction-tool rule the default and the value of the date
    range are the smallest and the largest year of the snapshot, both
    attained, so every row lies in the range; the lower bound of the slider
    is that smallest year and the upper bound the current calendar year. *)
Theorem date_range_covers_snapshot :
  forall (now_year : Z) (s s1 : state),
    did_change_extraction_tool now_year s = Ok s1 ->
    raw_data s1 <> [] ->
    exists lo hi : Z,
      filter_pubdate s1 = Some (Some lo, Some hi)
      /\ filter_pubdate_default s1 = Some (Some lo, Some hi)
      /\ filter_pubdate_bounds s1 = Some (Some lo, Some now_year)
      /\ (forall r, In r (raw_data s1) -> lo <= year r <= hi)
      /\ (exists r, In r (raw_data s1) /\ year r = lo)
      /\ (exists r, In r (raw_data s1) /\ year r = hi).
Proof.
  intros now_year s s1 H Hne.
  destruct (did_change_extraction_tool_fields now_year s s1 H)
    as [_ [Hb [Hd [Hp _]]]].
  destruct (year_min_max_spec (raw_data s1) Hne)
    as [lo [hi [Hlo [Hhi [Hall [Hmin Hmax]]]]]].
  exists lo, hi. rewrite Hp, Hd, Hb, Hlo, Hhi. repeat split; try assumption;
    apply Hall; assumption.
Qed.

Lemma date_range_covers_snapshot_witness :
  exists lo hi : Z,
    filter_pubdate (loaded three_papers) = Some (Some lo, Some hi)
    /\ (forall r, In r three_papers -> lo <= year r <= hi).
Proof.
  destruct (date_range_covers_snapshot 2024 (dashboard_on three_papers)
              (loaded three_papers))
    as [lo [hi [Hp [_ [_ [Hall _]]]]]].
  - vm_compute. reflexivity.
  - vm_compute. discriminate.
  - exists lo, hi. split; [exact Hp | exact Hall].
Defined.

(** ** The counted countries *)

Lemma dict_get_set {V : Type} (k k' : string) (v : V) (d : dict V) :
  dict_get k (dict_set k' v d)
  = if String.eqb k k' then Some v else dict_get k d.
Proof.
  induction d as [|[k0 v0] d IH]; simpl.
  - destruct (String.eqb k k'); reflexivity.
  - destruct (String.eqb_spec k' k0) as [->|Hne]; simpl.
    + destruct (String.eqb k k0); reflexivity.
    + destruct (String.eqb_spec k k0) as [->|Hne'].
      * apply not_eq_sym, String.eqb_neq in Hne. now rewrite Hne.
      * exact IH.
Qed.

Lemma dict_set_keys_In {V : Type} (k k' : string) (v : V) (d : dict V) :
  In k (dict_keys (dict_set k' v d)) <-> k = k' \/ In k (dict_keys d).
Proof.
  unfold dict_keys. induction d as [|[k0 v0] d IH]; simpl.
  - intuition.
  - destruct (String.eqb_spec k' k0) as [->|Hne]; simpl.
    + intuition.
    + rewrite IH. intuition.
Qed.

Lemma dict_set_keys_NoDup {V : Type} (k : string) (v : V) (d : dict V) :
  NoDup (dict_keys d) -> NoDup (dict_keys (dict_set k v d)).
Proof.
  unfold dict_keys. induction d as [|[k0 v0] d IH]; simpl; intros Hd.
  - constructor; [intros [] | constructor].
  - destruct (String.eqb_spec k k0) as [->|Hne]; simpl; [exact Hd |].
    inversion Hd as [|? ? Hk0 Hd']; subst. constructor; [| now apply IH].
    intros Hin. apply (dict_set_keys_In k0 k v d) in Hin.
    destruct Hin as [E | Hin]; [congruence | contradiction].
Qed.

Lemma dict_incr_count (k c : string) (d : dict nat) :
  country_sorter (dict_incr k d) c
  = (country_sorter d c + if String.eqb c k then 1 else 0)%nat.
Proof.
  unfold country_sorter, dict_incr. rewrite dict_get_set.
  destruct (String.eqb_spec c k) as [->|Hne]; [| lia].
  destruct (dict_get k d); lia.
Qed.

Lemma dict_incr_wf (k : string) (d : dict nat) :
  counts_wf d -> counts_wf (dict_incr k d).
Proof.
  intros [Hn Hp]. split.
  - now apply dict_set_keys_NoDup.
  - intros c. unfold dict_incr. rewrite dict_get_set.
    destruct (String.eqb c k); [discriminate | apply Hp].
Qed.

Lemma count_cell_spec (cs : list string) (d : dict nat) :
  counts_wf d ->
  counts_wf (fold_left (fun d c => dict_incr c d) cs d)
  /\ forall c,
       country_sorter (fold_left (fun d c => dict_incr c d) cs d) c
       = (country_sorter d c + count_eq String.eqb c cs)%nat.
Proof.
  revert d. induction cs as [|a cs IH]; intros d Hd; simpl.
  - split; [exact Hd | intros c; lia].
  - destruct (IH (dict_incr a d) (dict_incr_wf a d Hd)) as [Hwf Hc].
    split; [exact Hwf |]. intros c. rewrite Hc, dict_incr_count.
    destruct (String.eqb c a); lia.
Qed.

Lemma count_rows_spec (rows : list (option (list string))) (d : dict nat) :
  counts_wf d ->
  let step :=
    fun countries row =>
      match row with
      | None => dict_incr "None" countries
      | Some cs => fold_left (fun d c => dict_incr c d) cs countries
      end in
  counts_wf (fold_left step rows d)
  /\ forall c,
       country_sorter (fold_left step rows d) c
       = (country_sorter d c + occurrences c rows)%nat.
Proof.
  cbv zeta. revert d. induction rows as [|row rows IH]; intros d Hd.
  - split; [exact Hd | intros c; unfold occurrences; simpl; lia].
  - cbn [fold_left]. destruct row as [cs|].
    + destruct (count_cell_spec cs d Hd) as [Hwf Hc].
      destruct (IH _ Hwf) as [Hwf' Hc'].
      split; [exact Hwf' |]. intros c. rewrite Hc', Hc.
      unfold occurrences. simpl. lia.
    + destruct (IH _ (dict_incr_wf "None" d Hd)) as [Hwf' Hc'].
      split; [exact Hwf' |]. intros c. rewrite Hc', dict_incr_count.
      unfold occurrences. simpl. destruct (String.eqb c "None"); lia.
Qed.

Lemma count_countries_lookup :
  forall (rows : list (option (list string))) (c : string),
    NoDup (dict_keys (count_countries rows))
    /\ dict_get c (count_countries rows)
       = (if Nat.eqb (occurrences c rows) 0 then None
          else Some (occurrences c rows))
    /\ (In c (dict_keys (count_countries rows))
        <-> (0 < occurrences c rows)%nat).
Proof.
  intros rows c.
  assert (Hwf0 : counts_wf []).
  { split; [constructor | intros k; discriminate]. }
  destruct (count_rows_spec rows [] Hwf0) as [[Hn Hp] Hc].
  cbv zeta in Hn, Hp, Hc. fold (count_countries rows) in Hn, Hp, Hc.
  specialize (Hc c). unfold country_sorter in Hc. simpl in Hc.
  assert (Hget : dict_get c (count_countries rows)
                 = (if Nat.eqb (occurrences c rows) 0 then None
                    else Some (occurrences c rows))).
  { specialize (Hp c).
    destruct (dict_get c (count_countries rows)) as [n|]; rewrite <- Hc;
      [| reflexivity].
    destruct (Nat.eqb_spec n 0) as [E|E]; [congruence | reflexivity]. }
  split; [exact Hn |]. split; [exact Hget |].
  assert (Hkey : forall d : dict nat,
             In c (dict_keys d) <-> dict_get c d <> None).
  { intros d. unfold dict_keys. induction d as [|[k v] d IH]; simpl.
    - split; [intros [] | congruence].
    - destruct (String.eqb_spec c k) as [->|Hne].
      + split; [discriminate | now left].
      + rewrite <- IH. split; [intros [E|H]; [congruence | exact H] | now right]. }
  rewrite Hkey, Hget.
  destruct (Nat.eqb_spec (occurrences c rows) 0) as [E|E]; split;
    solve [congruence | lia | discriminate].
Qed.

(** X3: the dictionary [get_countries_with_count] builds holds every country
    name once, with the number of times it occurs in the country column; a
    row without countries counts once for ["None"]; a name that never occurs
    is not a key. *)
Theorem count_countries_exact :
  forall (rows : list (option (list string))) (c : string),
    NoDup (dict_keys (count_countries rows))
    /\ dict_get c (count_countries rows)
       = (if Nat.eqb (occurrences c rows) 0 then None
          else Some (occurrences c rows))
    /\ (In c (dict_keys (count_countries rows))
        <-> (0 < occurrences c rows)%nat).
Proof.
  intros rows c.
  destruct (count_countries_lookup rows c) as [Hkeys [Hget Hin]].
  split; [exact Hkeys |]. split; [exact Hget | exact Hin].
Qed.

Lemma country_sorter_occurrences (rows : list (option (list string)))
    (c : string) :
  country_sorter (count_countries rows) c = occurrences c rows.
Proof.
  assert (Hwf0 : counts_wf []).
  { split; [constructor | intros k; discriminate]. }
  destruct (count_rows_spec rows [] Hwf0) as [_ Hc].
  cbv zeta in Hc. fold (count_countries rows) in Hc. now rewrite Hc.
Qed.

(** X4: on an object whose memo table is empty the extraction-tool rule
    derives the country universe from the snapshot it loads: the universe
    holds each name that occurs in the country column once, ["None"]
    standing for the rows without countries, by non-increasing number of
    occurrences. *)
Theorem country_universe_ranked :
  forall (now_year : Z) (s s1 : state),
    countries_cache s = None ->
    did_change_extraction_tool now_year s = Ok s1 ->
    let column := map affiliation_country (raw_data s1) in
    let universe := filter_affiliation_country_objects s1 in
    NoDup universe
    /\ (forall c, In c universe <-> (0 < occurrences c column)%nat)
    /\ StronglySorted
         (fun a b => (occurrences b column <= occurrences a column)%nat)
         universe.
Proof.
  intros now_year s s1 Hcache H.
  destruct (did_change_extraction_tool_fields now_year s s1 H)
    as [_ [_ [_ [_ [Hu _]]]]].
  rewrite Hcache in Hu. cbv zeta in *. rewrite Hu.
  set (column := map affiliation_country (raw_data s1)).
  split; [| split].
  - apply py_sorted_NoDup. apply (count_countries_lookup column "").
  - intros c. rewrite py_sorted_In.
    apply (count_countries_lookup column c).
  - eapply StronglySorted_weaken; [| apply py_sorted_sorted].
    + intros a b Hab. unfold leb_rel in Hab. apply Nat.leb_le in Hab.
      now rewrite !country_sorter_occurrences in Hab.
    + intros a b.
      destruct (Nat.leb_spec (country_sorter (count_countries column) b)
                  (country_sorter (count_countries column) a));
        [now left | right; apply Nat.leb_le; lia].
    + intros a b c Hab Hbc. apply Nat.leb_le in Hab, Hbc.
      apply Nat.leb_le. lia.
Qed.

Lemma country_universe_ranked_witness :
  NoDup (filter_affiliation_country_objects (loaded three_papers)).
Proof.
  assert (H1 : countries_cache (dashboard_on three_papers) = None)
    by reflexivity.
  assert (H2 : did_change_extraction_tool 2024 (dashboard_on three_papers)
               = Ok (loaded three_papers))
    by (vm_compute; reflexivity).
  exact (proj1 (country_universe_ranked 2024 _ _ H1 H2)).
Defined.

(** X5: once the memo table of [get_countries_with_count] is filled the rule
    no longer counts: it derives the country universe from the remembered
    dictionary, so two runs that start from the same table end with the same
    universe whatever snapshots they load, and the table stays as it was. *)
Theorem country_universe_memoized :
  forall (now_year now_year' : Z) (s s' s1 s1' : state) (d : dict nat),
    countries_cache s = Some d ->
    countries_cache s' = Some d ->
    did_change_extraction_tool now_year s = Ok s1 ->
    did_change_extraction_tool now_year' s' = Ok s1' ->
    filter_affiliation_country_objects s1
    = filter_affiliation_country_objects s1'
    /\ countries_cache s1 = Some d
    /\ countries_cache s1' = Some d.
Proof.
  intros now_year now_year' s s' s1 s1' d Hc Hc' H H'.
  destruct (did_change_extraction_tool_fields _ _ _ H)
    as [_ [_ [_ [_ [Hu [Hm _]]]]]].
  destruct (did_change_extraction_tool_fields _ _ _ H')
    as [_ [_ [_ [_ [Hu' [Hm' _]]]]]].
  rewrite Hc in Hu, Hm. rewrite Hc' in Hu', Hm'.
  cbv zeta in *. rewrite Hu, Hu'. repeat split; assumption.
Qed.

Lemma country_universe_memoized_witness :
  raw_data (rerun (with_snapshot gap_papers (loaded three_papers)))
  = gap_papers
  /\ filter_affiliation_country_objects
       (rerun (with_snapshot gap_papers (loaded three_papers)))
     = filter_affiliation_country_objects (rerun (loaded three_papers)).
Proof.
  split; [vm_compute; reflexivity |].
  assert (H1 : countries_cache (with_snapshot gap_papers (loaded three_papers))
               = Some [("US", 2%nat); ("FR", 1%nat)])
    by (vm_compute; reflexivity).
  assert (H2 : countries_cache (loaded three_papers)
               = Some [("US", 2%nat); ("FR", 1%nat)])
    by (vm_compute; reflexivity).
  assert (H3 : did_change_extraction_tool 2024
                 (with_snapshot gap_papers (loaded three_papers))
               = Ok (rerun (with_snapshot gap_papers (loaded three_papers))))
    by (vm_compute; reflexivity).
  assert (H4 : did_change_extraction_tool 2024 (loaded three_papers)
               = Ok (rerun (loaded three_papers)))
    by (vm_compute; reflexivity).
  exact (proj1 (country_universe_memoized 2024 2024 _ _ _ _ _ H1 H2 H3 H4)).
Defined.

(** ** Outcomes of the splitting-variable rule *)

Lemma did_change_splitting_var_unbound (s : state) :
  splitting_var s = SV_year \/ splitting_var s = SV_fund_pmc_institute ->
  did_change_splitting_var s = Raise UnboundLocalError.
Proof.
  intros [Hs | Hs]; unfold did_change_splitting_var;
    rewrite Hs; simpl; rewrite Hs; simpl; rewrite Hs; reflexivity.
Qed.

(** X6: the splitting-variable rule has no message for the values ["year"]
    and ["fund_pmc_institute"] and fails on exactly these with
    [UnboundLocalError]; when it succeeds it has appended exactly one
    notification, the one of its branch, and has left the snapshot, the
    splitting variable, both universes, the metric and the date range as
    they were. *)
Theorem splitting_rule_outcomes :
  forall s : state,
    (did_change_splitting_var s = Raise UnboundLocalError
     <-> splitting_var s = SV_year
         \/ splitting_var s = SV_fund_pmc_institute)
    /\ forall s' : state,
         did_change_splitting_var s = Ok s' ->
         notifications s'
         = (notifications s
            ++ [match splitting_var s with
                | SV_journal => notif_journal
                | SV_affiliation_country => notif_country
                | _ => notif_none
                end])%list
         /\ raw_data s' = raw_data s
         /\ splitting_var s' = splitting_var s
         /\ filter_journal_objects s' = filter_journal_objects s
         /\ filter_affiliation_country_objects s'
            = filter_affiliation_country_objects s
         /\ metrics s' = metrics s
         /\ filter_pubdate s' = filter_pubdate s.
Proof.
  intros s. destruct (splitting_var s) eqn:Hs.
  - rewrite (did_change_splitting_var_unbound s (or_introl Hs)).
    split; [tauto | discriminate].
  - rewrite (did_change_splitting_var_None s Hs). split.
    + split; [discriminate | intros [H|H]; discriminate].
    + intros s' H. injection H as <-. cbn. rewrite Hs. repeat split.
  - rewrite (did_change_splitting_var_journal s Hs). split.
    + split; [discriminate | intros [H|H]; discriminate].
    + intros s' H. injection H as <-. cbn. rewrite Hs. repeat split.
  - rewrite (did_change_splitting_var_country s Hs). split.
    + split; [| intros [H|H]; discriminate].
      destruct (nth_error (qualifying_counts s) 10); discriminate.
    + intros s'. destruct (nth_error (qualifying_counts s) 10);
        [| discriminate].
      intros H. injection H as <-.
      pose proof (get_countries_with_count_fields
                    (set_filter_journal (filter_journal_objects s) s)) as F.
      cbv zeta in F. destruct F as [F1 [F2 [_ [_ [F3 [F4 [F5 _]]]]]]].
      cbn [notifications notify set_filter_affiliation_country raw_data
             splitting_var filter_journal_objects
             filter_affiliation_country_objects metrics filter_pubdate].
      rewrite F1, F2, F3, F4, F5.
      unfold get_countries_with_count.
      destruct (countries_cache
                  (set_filter_journal (filter_journal_objects s) s));
        cbn; rewrite ?Hs; repeat split.
  - rewrite (did_change_splitting_var_unbound s (or_intror Hs)).
    split; [tauto | discriminate].
Qed.

Lemma splitting_rule_outcomes_witness :
  notifications (split_by SV_journal (loaded gap_papers))
  = (notifications (set_splitting_var SV_journal (loaded gap_papers))
     ++ [notif_journal])%list.
Proof.
  assert (H : did_change_splitting_var
                (set_splitting_var SV_journal (loaded gap_papers))
              = Ok (split_by SV_journal (loaded gap_papers)))
    by (vm_compute; reflexivity).
  exact (proj1 (proj2 (splitting_rule_outcomes _) _ H)).
Defined.

(** X7: on the object the extraction-tool rule leaves, each successful run of
    the splitting-variable rule keeps the selections inside their universes:
    every selected journal is in the journal universe and every selected
    country in the country universe. *)
Theorem selections_within_universes :
  forall (now_year : Z) (s s1 s2 : state) (v : splitting),
    did_change_extraction_tool now_year s = Ok s1 ->
    did_change_splitting_var (set_splitting_var v s1) = Ok s2 ->
    incl (filter_journal s2) (filter_journal_objects s2)
    /\ incl (filter_affiliation_country s2)
         (filter_affiliation_country_objects s2).
Proof.
  intros now_year s s1 s2 v H1 H2.
  pose proof (extraction_tool_journal_universe _ _ _ H1) as Hj.
  destruct (did_change_extraction_tool_fields _ _ _ H1)
    as [_ [_ [_ [_ [Hu [Hm _]]]]]].
  cbv zeta in Hu, Hm.
  set (d := match countries_cache s with
            | Some d => d
            | None => count_countries (map affiliation_country (raw_data s1))
            end) in *.
  set (sv := set_splitting_var v s1) in *.
  assert (Hsv : splitting_var sv = v) by reflexivity.
  destruct v.
  - rewrite (did_change_splitting_var_unbound sv (or_introl Hsv)) in H2.
    discriminate.
  - rewrite (did_change_splitting_var_None sv Hsv) in H2.
    injection H2 as <-. cbn. split; apply incl_refl.
  - rewrite (did_change_splitting_var_journal sv Hsv) in H2.
    injection H2 as <-. cbn. split; [| apply incl_refl].
    intros j Hin.
    assert (Hin' : In j (map fst (value_counts (map journal (raw_data sv))))).
    { rewrite <- (firstn_skipn 10). apply in_or_app. now left. }
    rewrite value_counts_index in Hin'. apply py_sorted_In in Hin'.
    unfold sv in *. cbn [filter_journal_objects set_splitting_var] in *.
    now rewrite Hj.
  - rewrite (did_change_splitting_var_country sv Hsv) in H2.
    destruct (nth_error (qualifying_counts sv) 10); [| discriminate].
    injection H2 as <-.
    assert (Hq : qualifying_countries sv
                 = filter (fun cc => Nat.ltb 10 (snd cc)) d).
    { unfold qualifying_countries. rewrite get_countries_with_count_fst.
      unfold sv. cbn [countries_cache set_splitting_var]. now rewrite Hm. }
    cbn [filter_journal filter_affiliation_country notify
           set_filter_affiliation_country filter_journal_objects
           filter_affiliation_country_objects].
    match goal with
    | |- context [snd (get_countries_with_count ?x)] =>
        pose proof (get_countries_with_count_fields x) as F
    end.
    cbv zeta in F. destruct F as [_ [_ [F3 [_ [F5 [F6 _]]]]]].
    rewrite F3, F5, F6. split; [apply incl_refl |].
    intros c Hin. rewrite Hq in Hin.
    apply in_map_iff in Hin. destruct Hin as [[c' k] [<- Hin]].
    apply filter_In in Hin. destruct Hin as [Hin _].
    apply filter_In in Hin. destruct Hin as [Hin _].
    unfold sv. cbn [filter_affiliation_country_objects set_filter_journal
                      set_splitting_var].
    rewrite Hu. apply py_sorted_In. unfold dict_keys.
    apply in_map_iff. exists (c', k). split; [reflexivity | exact Hin].
  - rewrite (did_change_splitting_var_unbound sv (or_intror Hsv)) in H2.
    discriminate.
Qed.

Lemma selections_within_universes_witness :
  incl (filter_journal (split_by SV_journal (loaded eleven_journals)))
    (filter_journal_objects (split_by SV_journal (loaded eleven_journals))).
Proof.
  assert (H1 : did_change_extraction_tool 2024 (dashboard_on eleven_journals)
               = Ok (loaded eleven_journals))
    by (vm_compute; reflexivity).
  assert (H2 : did_change_splitting_var
                 (set_splitting_var SV_journal (loaded eleven_journals))
               = Ok (split_by SV_journal (loaded eleven_journals)))
    by (vm_compute; reflexivity).
  exact (proj1 (selections_within_universes 2024 _ _ _ _ H1 H2)).
Defined.

(** X8: a successful country default is a threshold set.  There is a count
    above 10 such that the selected countries are exactly the counted ones
    with at least that many occurrences, so countries of equal count are
    selected together or not at all; and at least eleven are selected. *)
Theorem country_default_threshold :
  forall s s' : state,
    splitting_var s = SV_affiliation_country ->
    did_change_splitting_var s = Ok s' ->
    exists top : nat,
      (10 < top)%nat
      /\ (forall c,
             In c (filter_affiliation_country s')
             <-> exists n, In (c, n) (fst (get_countries_with_count s))
                           /\ (top <= n)%nat)
      /\ (11 <= List.length (filter_affiliation_country s'))%nat.
Proof.
  intros s s' Hs H.
  pose proof (country_default_at_least_eleven s s' Hs H) as Hlen.
  rewrite (did_change_splitting_var_country s Hs) in H.
  destruct (nth_error (qualifying_counts s) 10) as [top|] eqn:E;
    [| discriminate].
  injection H as <-. exists top.
  assert (Htop : (10 < top)%nat).
  { apply nth_error_In in E. unfold qualifying_counts in E.
    apply py_sorted_In, in_map_iff in E. destruct E as [[c n] [<- Hin]].
    unfold qualifying_countries in Hin. apply filter_In in Hin.
    destruct Hin as [_ Hin]. now apply Nat.ltb_lt in Hin. }
  split; [exact Htop |]. split; [| exact Hlen].
  intros c.
  cbn [filter_affiliation_country notify set_filter_affiliation_country].
  unfold qualifying_countries. rewrite in_map_iff. split.
  - intros [[c' n] [<- Hin]]. apply filter_In in Hin.
    destruct Hin as [Hin Hn]. apply filter_In in Hin. destruct Hin as [Hin _].
    exists n. split; [exact Hin | now apply Nat.leb_le in Hn].
  - intros [n [Hin Hn]]. exists (c, n). split; [reflexivity |].
    apply filter_In. split; [| now apply Nat.leb_le].
    apply filter_In. split; [exact Hin |]. apply Nat.ltb_lt. cbn [snd]. lia.
Qed.

Lemma country_default_threshold_witness :
  (11 <= List.length
           (filter_affiliation_country
              (split_by SV_affiliation_country (loaded eleven_countries))))%nat.
Proof.
  assert (H1 : splitting_var
                 (set_splitting_var SV_affiliation_country
                    (loaded eleven_countries))
               = SV_affiliation_country)
    by reflexivity.
  assert (H2 : did_change_splitting_var
                 (set_splitting_var SV_affiliation_country
                    (loaded eleven_countries))
               = Ok (split_by SV_affiliation_country (loaded eleven_countries)))
    by (vm_compute; reflexivity).
  destruct (country_default_threshold _ _ H1 H2) as [top [_ [_ H]]].
  exact H.
Defined.

(** ** The filtering step, row by row *)




(** ** Cells of the aggregated frame *)




Lemma aggretations_value :
  aggretations
  = Ok [ ("percent_is_data_pred",
          fun g : list record =>
            option_map (fun m => Qmult m (inject_Z 100))
              (mean_bool (map is_data_pred g)));
         ("count_true_is_data_pred",
          fun g : list record =>
            Some (inject_Z (Z.of_nat (sum_true (map is_data_pred g)))));
         ("percent_is_code_pred",
          fun g : list record =>
            option_map (fun m => Qmult m (inject_Z 100))
              (mean_bool (map is_code_pred g)));
         ("count_true_is_code_pred",
          fun g : list record =>
            Some (inject_Z (Z.of_nat (sum_true (map is_code_pred g))))) ].
Proof. reflexivity. Qed.




(** ** Nothing is lost in the groups *)

Lemma list_sum_cons (a : nat) (l : list nat) :
  list_sum (a :: l) = (a + list_sum l)%nat.
Proof. reflexivity. Qed.

Lemma list_sum_zero {K : Type} (ks : list K) :
  list_sum (map (fun _ => O) ks) = O.
Proof. induction ks; simpl; auto. Qed.

Lemma list_sum_add {K : Type} (f g : K -> nat) (ks : list K) :
  list_sum (map (fun k => (f k + g k)%nat) ks)
  = (list_sum (map f ks) + list_sum (map g ks))%nat.
Proof. induction ks as [|k ks IH]; simpl; [reflexivity | rewrite IH; lia]. Qed.

Lemma list_sum_flat_map {A B : Type} (f : B -> nat) (g : A -> list B)
    (l : list A) :
  list_sum (map f (flat_map g l))
  = list_sum (map (fun a => list_sum (map f (g a))) l).
Proof.
  induction l as [|a l IH]; simpl; [reflexivity |].
  now rewrite map_app, list_sum_app, IH.
Qed.

Section Partition.
Context {A K : Type} (m : A -> K -> bool).
Hypothesis m_functional :
  forall r k k', m r k = true -> m r k' = true -> k = k'.

Lemma one_match (r : A) (ks : list K) (k0 : K) :
  NoDup ks -> In k0 ks -> m r k0 = true ->
  list_sum (map (fun k => if m r k then 1%nat else O) ks) = 1%nat.
Proof.
  intros Hn. induction Hn as [|k ks Hk Hn IH]; intros Hin Hm; [destruct Hin |].
  cbn [map]. rewrite list_sum_cons. destruct Hin as [-> | Hin].
  - rewrite Hm.
    assert (E : map (fun k => if m r k then 1%nat else O) ks
                = map (fun _ => O) ks).
    { apply map_ext_in. intros k Hk'. destruct (m r k) eqn:E; [| reflexivity].
      rewrite (m_functional r k k0 E Hm) in Hk'. contradiction. }
    rewrite E, list_sum_zero. reflexivity.
  - destruct (m r k) eqn:E.
    + rewrite (m_functional r k k0 E Hm) in Hk. contradiction.
    + now rewrite IH.
Qed.

(** Groups headed by distinct keys that every element matches one of split
    the elements among them. *)
Lemma partition_count (P : A -> bool) (ks : list K) (l : list A) :
  NoDup ks ->
  (forall r, In r l -> exists k, In k ks /\ m r k = true) ->
  list_sum
    (map (fun k => List.length (filter P (filter (fun r => m r k) l))) ks)
  = List.length (filter P l).
Proof.
  intros Hn. induction l as [|r l IH]; intros Hcover.
  - cbn [filter List.length]. apply list_sum_zero.
  - assert (Hstep :
      map (fun k => List.length
                      (filter P (filter (fun r => m r k) (r :: l)))) ks
      = map (fun k =>
               ((if m r k then if P r then 1 else 0 else 0)
                + List.length (filter P (filter (fun r => m r k) l)))%nat)
          ks).
    { apply map_ext. intros k. cbn [filter].
      destruct (m r k); [| reflexivity]. cbn [filter].
      destruct (P r); reflexivity. }
    rewrite Hstep, list_sum_add, IH
      by (intros r' Hr'; apply Hcover; now right).
    cbn [filter]. destruct (Hcover r (or_introl eq_refl)) as [k0 [Hk0 Hm0]].
    destruct (P r).
    + rewrite (one_match r ks k0 Hn Hk0 Hm0). reflexivity.
    + assert (E : map (fun k => if m r k then O else O) ks
                  = map (fun _ => O) ks)
        by (apply map_ext; intros k; now destruct (m r k)).
      rewrite E, list_sum_zero. reflexivity.
Qed.
End Partition.

Lemma sum_true_filter {A : Type} (P : A -> bool) (g : list A) :
  sum_true (map P g) = List.length (filter P g).
Proof.
  unfold sum_true. induction g as [|a g IH]; simpl; [reflexivity |].
  destruct (P a); simpl; now rewrite IH.
Qed.

Lemma count_cell_group aggs (y : Z) (k : option cell) (g : list record) :
  aggretations = Ok aggs ->
  count_cell "count_true_is_data_pred" (agg_group aggs y k g)
  = List.length (filter is_data_pred g)
  /\ count_cell "count_true_is_code_pred" (agg_group aggs y k g)
     = List.length (filter is_code_pred g).
Proof.
  rewrite aggretations_value. intros H. injection H as <-.
  unfold count_cell, cell_value, agg_group.
  cbn [row_values map fst snd dict_get String.eqb Ascii.eqb Bool.eqb
         inject_Z Qnum].
  now rewrite !Nat2Z.id, !sum_true_filter.
Qed.

Lemma filtered_df_numeric (s : state) (filtered : list record) :
  filtered_df s = Ok filtered -> numeric_range s.
Proof.
  unfold filtered_df, numeric_range, journal_clauses, pubdate_clauses,
    int_ne_list.
  destruct (filter_pubdate s) as [[[lo|] [hi|]]|]; simpl; unfold query; simpl;
    try exact (fun _ => I); discriminate.
Qed.

Lemma filtered_df_incl (s : state) (filtered : list record) :
  filtered_df s = Ok filtered -> incl filtered (raw_data s).
Proof.
  intros H. rewrite (filtered_df_passes s (filtered_df_numeric s _ H)) in H.
  injection H as <-. intros r Hr. apply filter_In in Hr. tauto.
Qed.

Lemma groupby_year_counts aggs (P : record -> bool) (f : agg_row -> nat)
    (df : list record) :
  (forall y k g, f (agg_group aggs y k g) = List.length (filter P g)) ->
  list_sum (map f (groupby_year aggs df)) = List.length (filter P df).
Proof.
  intros Hf. unfold groupby_year. rewrite map_map.
  erewrite map_ext; [| intros y; apply Hf].
  apply (partition_count (fun r y => year r =? y)).
  - intros r k k' H1 H2. apply Z.eqb_eq in H1, H2. congruence.
  - apply years_sorted_NoDup.
  - intros r Hr. exists (year r). split; [| apply Z.eqb_refl].
    apply years_sorted_In. now apply in_map.
Qed.

Lemma groupby_year_split_counts (v : splitting) aggs (P : record -> bool)
    (f : agg_row -> nat) (df : list record) :
  (forall y k g, f (agg_group aggs y k g) = List.length (filter P g)) ->
  (forall r, In r df -> split_cell v r <> None) ->
  list_sum (map f (groupby_year_split v aggs df)) = List.length (filter P df).
Proof.
  intros Hf Hcell. unfold groupby_year_split. rewrite list_sum_flat_map.
  erewrite map_ext.
  - apply (partition_count (fun r y => year r =? y) ) with (P := P).
    + intros r k k' H1 H2. apply Z.eqb_eq in H1, H2. congruence.
    + apply years_sorted_NoDup.
    + intros r Hr. exists (year r). split; [| apply Z.eqb_refl].
      apply years_sorted_In. now apply in_map.
  - intros y. cbv beta zeta. rewrite map_map.
    erewrite map_ext; [| intros k; apply Hf].
    fold (year_cells v df y).
    apply (partition_count
             (fun r k => opt_cell_eqb (split_cell v r) (Some k))).
    + intros r k k' H1 H2. apply opt_cell_eqb_Some in H1, H2. congruence.
    + apply year_cells_NoDup.
    + intros r Hr. apply filter_In in Hr. destruct Hr as [Hr Hy].
      apply Z.eqb_eq in Hy.
      destruct (split_cell v r) as [k|] eqn:Hk;
        [| exfalso; now apply (Hcell r Hr)].
      exists k. split.
      * apply year_cells_In. exists r. tauto.
      * cbv beta. now apply opt_cell_eqb_Some.
Qed.

(** X11: the groups lose and repeat nothing.  On a normalized snapshot the
    data-sharing count cells of the aggregated frame add up to the number of
    filtered rows that share data, and the code-sharing count cells to the
    number that share code. *)
Theorem counts_add_up :
  forall (s : state) (filtered : list record) (df : frame),
    normalized (raw_data s) ->
    filtered_df s = Ok filtered ->
    filtered_grouped_data s = Ok df ->
    list_sum (map (count_cell "count_true_is_data_pred") (rows df))
    = List.length (filter is_data_pred filtered)
    /\ list_sum (map (count_cell "count_true_is_code_pred") (rows df))
       = List.length (filter is_code_pred filtered).
Proof.
  intros s filtered df Hnorm Hfl Hdf.
  pose proof (filtered_df_incl s filtered Hfl) as Hincl.
  unfold filtered_grouped_data in Hdf. rewrite Hfl in Hdf.
  destruct aggretations_ok as [aggs Ha]. rewrite Ha in Hdf.
  cbn [bind Ok] in Hdf.
  assert (Hd : forall y k g,
             count_cell "count_true_is_data_pred" (agg_group aggs y k g)
             = List.length (filter is_data_pred g))
    by (intros; now apply count_cell_group).
  assert (Hc : forall y k g,
             count_cell "count_true_is_code_pred" (agg_group aggs y k g)
             = List.length (filter is_code_pred g))
    by (intros; now apply count_cell_group).
  destruct (splitting_var s) eqn:Hv; try discriminate;
    injection Hdf as <-; cbn [rows].
  - split; now apply groupby_year_counts.
  - split; apply groupby_year_split_counts; try assumption;
      intros r _; discriminate.
  - assert (Hcell : forall r, In r filtered ->
                              split_cell SV_affiliation_country r <> None).
    { intros r Hr. simpl. specialize (Hnorm r (Hincl r Hr)).
      destruct (affiliation_country r); [discriminate | congruence]. }
    split; now apply groupby_year_split_counts.
  - split; apply groupby_year_split_counts; try assumption;
      intros r _; discriminate.
Qed.

Lemma counts_add_up_witness :
  list_sum
    (map (count_cell "count_true_is_data_pred")
       (match filtered_grouped_data (split_by SV_journal (loaded gap_papers))
        with
        | inr df => rows df
        | inl _ => []
        end))
  = 2%nat.
Proof.
  assert (Hn : normalized (raw_data (split_by SV_journal (loaded gap_papers)))).
  { intros r Hr. vm_compute in Hr.
    destruct Hr as [<- | [<- | [<- | []]]]; discriminate. }
  destruct (filtered_df (split_by SV_journal (loaded gap_papers)))
    as [e|fl] eqn:Hfl; [vm_compute in Hfl; discriminate |].
  destruct (filtered_grouped_data (split_by SV_journal (loaded gap_papers)))
    as [e|df] eqn:Hdf; [vm_compute in Hdf; discriminate |].
  rewrite (proj1 (counts_add_up _ fl df Hn Hfl Hdf)).
  vm_compute in Hfl. injection Hfl as <-. reflexivity.
Defined.

(** ** Shape and outcomes of the chart *)

Lemma mapM_guarded {A B C : Type} (c : result C) (g : A -> B) (l : list A)
    (r : list B) :
  mapM (fun a => _ <- c ;; Ok (g a)) l = Ok r -> r = map g l.
Proof.
  revert r. induction l as [|a l IH]; intros r; cbn [mapM map].
  - intros H. now injection H as <-.
  - destruct c as [e|x]; [discriminate |]. cbn [bind Ok].
    match goal with
    | |- context [mapM ?f l] => destruct (mapM f l) as [e|bs] eqn:E
    end; [discriminate |].
    cbn [bind]. intros H. unfold Ok in H. injection H as <-.
    now rewrite (IH bs E).
Qed.

(** X12: whenever the chart builder assigns a configuration, its legend runs
    parallel to its series: the legend names are the series names in the same
    order, every entry carries the same icon, and every series has its name
    for identifier.  Without a split the one series is named after the
    metric; with a split the names are the selected values by increasing
    name.  The title reads "{metric} by {splitting variable} ({lo}-{hi})". *)
Theorem chart_legend_parallel :
  forall (s : state) (cfg : echarts_config),
    updated_echart_plot s = Ok (Some cfg) ->
    map fst (legend_data cfg) = map series_name (config_series cfg)
    /\ (forall e, In e (legend_data cfg) -> snd e = legend_icon)
    /\ (forall d, In d (config_series cfg) -> series_id d = series_name d)
    /\ map series_name (config_series cfg)
       = (if splitting_eqb (splitting_var s) SV_None then [metrics s]
          else py_sorted String.leb (split_filter s))
    /\ exists lo hi : Z,
         filter_pubdate s = Some (Some lo, Some hi)
         /\ title_text cfg
            = metrics s ++ " by " ++ splitting_name (splitting_var s)
              ++ " (" ++ str_of_Z lo ++ "-" ++ str_of_Z hi ++ ")".
Proof.
  intros s cfg. unfold updated_echart_plot.
  destruct (filter_pubdate s) as [[lo hi]|]; [| discriminate].
  destruct (filtered_grouped_data s) as [e|df]; [discriminate |].
  cbn [bind].
  destruct (dict_get (metrics s) metrics_by_title) as [raw_metric|];
    [| discriminate].
  cbn [from_option bind Ok].
  assert (Hfinish :
    forall (series : list series) (legend : list (string * string)),
      map fst legend = map series_name series ->
      (forall e, In e legend -> snd e = legend_icon) ->
      (forall d, In d series -> series_id d = series_name d) ->
      map series_name series
      = (if splitting_eqb (splitting_var s) SV_None then [metrics s]
         else py_sorted String.leb (split_filter s)) ->
      (lo0 <- from_option ValueError lo ;;
       hi0 <- from_option ValueError hi ;;
       Ok (Some
             (mk_echarts_config
                (metrics s ++ " by " ++ splitting_name (splitting_var s)
                 ++ " (" ++ str_of_Z lo0 ++ "-" ++ str_of_Z hi0 ++ ")")
                legend (unique Z.eqb (map row_year (rows df))) series)))
      = Ok (Some cfg) ->
      map fst (legend_data cfg) = map series_name (config_series cfg)
      /\ (forall e, In e (legend_data cfg) -> snd e = legend_icon)
      /\ (forall d, In d (config_series cfg) -> series_id d = series_name d)
      /\ map series_name (config_series cfg)
         = (if splitting_eqb (splitting_var s) SV_None then [metrics s]
            else py_sorted String.leb (split_filter s))
      /\ exists lo0 hi0 : Z,
           Some (lo, hi) = Some (Some lo0, Some hi0)
           /\ title_text cfg
              = metrics s ++ " by " ++ splitting_name (splitting_var s)
                ++ " (" ++ str_of_Z lo0 ++ "-" ++ str_of_Z hi0 ++ ")").
  { intros series legend H1 H2 H3 H4.
    destruct lo as [lo0|]; [| discriminate].
    destruct hi as [hi0|]; [| discriminate].
    cbn [from_option bind Ok]. intros H. injection H as <-.
    cbn [legend_data config_series title_text].
    repeat split; try assumption. exists lo0, hi0. split; reflexivity. }
  destruct (splitting_eqb (splitting_var s) SV_None) eqn:Enone.
  - destruct (frame_column raw_metric df) as [e|data]; [discriminate |].
    cbn [bind Ok]. apply Hfinish.
    + reflexivity.
    + intros e [<- | []]. reflexivity.
    + intros d [<- | []]. reflexivity.
    + reflexivity.
  - assert (Hloop :
      forall (sel : list string) (q : option cell -> string -> bool),
        sel = split_filter s ->
        (' (series, legend_data) <-
           (series <-
              mapM
                (fun selected_item =>
                   _ <- frame_column raw_metric df ;;
                   Ok (mk_series selected_item selected_item
                         (map snd
                            (mean_by_year raw_metric
                               (filter
                                  (fun r => q (row_split r) selected_item)
                                  (rows df))))))
                (py_sorted String.leb sel) ;;
            Ok (series, map (fun d => (series_name d, legend_icon)) series)) ;;
         lo0 <- from_option ValueError lo ;;
         hi0 <- from_option ValueError hi ;;
         Ok (Some
               (mk_echarts_config
                  (metrics s ++ " by " ++ splitting_name (splitting_var s)
                   ++ " (" ++ str_of_Z lo0 ++ "-" ++ str_of_Z hi0 ++ ")")
                  legend_data (unique Z.eqb (map row_year (rows df)))
                  series)))
        = Ok (Some cfg) ->
        map fst (legend_data cfg) = map series_name (config_series cfg)
        /\ (forall e, In e (legend_data cfg) -> snd e = legend_icon)
        /\ (forall d, In d (config_series cfg) ->
                      series_id d = series_name d)
        /\ map series_name (config_series cfg)
           = py_sorted String.leb (split_filter s)
        /\ exists lo0 hi0 : Z,
             Some (lo, hi) = Some (Some lo0, Some hi0)
             /\ title_text cfg
                = metrics s ++ " by " ++ splitting_name (splitting_var s)
                  ++ " (" ++ str_of_Z lo0 ++ "-" ++ str_of_Z hi0 ++ ")").
    { intros sel q Hsel.
      match goal with
      | |- context [mapM ?f ?l] => destruct (mapM f l) as [e|series] eqn:Em
      end; [discriminate |].
      apply mapM_guarded in Em. cbn [bind Ok]. apply Hfinish.
      - rewrite map_map. reflexivity.
      - intros e He. apply in_map_iff in He. destruct He as [d [<- _]].
        reflexivity.
      - intros d Hd. rewrite Em in Hd. apply in_map_iff in Hd.
        destruct Hd as [item [<- _]]. reflexivity.
      - rewrite Em, map_map, Hsel. cbn [series_name]. apply map_id. }
    unfold split_filter in *.
    destruct (splitting_var s) eqn:Hv; try discriminate;
      cbn [bind Ok]; try (apply Hloop; reflexivity).
Qed.

Lemma chart_legend_parallel_witness :
  exists cfg : echarts_config,
    updated_echart_plot (split_by SV_journal (loaded gap_papers))
    = Ok (Some cfg)
    /\ map fst (legend_data cfg) = map series_name (config_series cfg).
Proof.
  assert (H : exists cfg,
             updated_echart_plot (split_by SV_journal (loaded gap_papers))
             = Ok (Some cfg))
    by (eexists; vm_compute; reflexivity).
  destruct H as [cfg Hcfg]. exists cfg. split; [exact Hcfg |].
  exact (proj1 (chart_legend_parallel _ cfg Hcfg)).
Defined.



(** ** Flattening nested dictionaries *)

Lemma pyobj_nested_ind {V : Type} (P : pyobj V -> Prop) :
  (forall v, P (PLeaf v)) ->
  (forall d, Forall (fun kv => P (snd kv)) d -> P (PDict d)) ->
  forall o, P o.
Proof.
  intros Hleaf Hdict. fix IH 1. intros [v|d].
  - apply Hleaf.
  - apply Hdict. induction d as [|[k o] d IHd]; constructor.
    + apply IH.
    + exact IHd.
Qed.

Lemma dict_get_app {V : Type} (k : string) (l1 l2 : list (string * V)) :
  dict_get k (l1 ++ l2)%list
  = match dict_get k l1 with
    | Some v => Some v
    | None => dict_get k l2
    end.
Proof.
  induction l1 as [|[k' v'] l1 IH]; simpl; [reflexivity |].
  destruct (String.eqb k k'); [reflexivity | exact IH].
Qed.

Lemma dict_of_items_acc {V : Type} (k : string) (items : list (string * V))
    (acc : dict V) :
  dict_get k (fold_left (fun d kv => dict_set (fst kv) (snd kv) d) items acc)
  = match last_value k items with
    | Some v => Some v
    | None => dict_get k acc
    end.
Proof.
  unfold last_value. revert acc.
  induction items as [|[k' v'] items IH]; intros acc; [reflexivity |].
  cbn [fold_left fst snd rev]. rewrite IH, dict_get_app, dict_get_set.
  destruct (dict_get k (rev items)); [reflexivity |].
  cbn [dict_get]. destruct (String.eqb k k'); reflexivity.
Qed.

Lemma dict_of_items_get {V : Type} (k : string) (items : list (string * V)) :
  dict_get k (dict_of_items items) = last_value k items.
Proof.
  unfold dict_of_items. rewrite dict_of_items_acc.
  now destruct (last_value k items).
Qed.

Lemma dict_of_items_NoDup {V : Type} (items : list (string * V)) :
  NoDup (dict_keys (dict_of_items items)).
Proof.
  unfold dict_of_items.
  assert (H : forall acc : dict V,
             NoDup (dict_keys acc) ->
             NoDup (dict_keys
                      (fold_left (fun d kv => dict_set (fst kv) (snd kv) d)
                         items acc))).
  { induction items as [|kv items IH]; intros acc Hacc; [exact Hacc |].
    cbn [fold_left]. apply IH. now apply dict_set_keys_NoDup. }
  apply H. constructor.
Qed.

Lemma dict_get_None_keys {V : Type} (k : string) (d : dict V) :
  dict_get k d = None <-> ~ In k (dict_keys d).
Proof.
  unfold dict_keys. induction d as [|[k' v'] d IH]; simpl.
  - tauto.
  - destruct (String.eqb_spec k k') as [->|Hne].
    + split; [discriminate | intros H; exfalso; apply H; now left].
    + rewrite IH. split; [intros H [E|Hin]; [congruence | contradiction]
                         | intros H Hin; apply H; now right].
Qed.

(** In a dictionary the value found under a key is the one written last. *)
Lemma last_value_NoDup {V : Type} (k : string) (d : dict V) :
  NoDup (dict_keys d) -> last_value k d = dict_get k d.
Proof.
  unfold last_value, dict_keys. induction d as [|[k' v'] d IH]; intros Hd;
    [reflexivity |].
  cbn [map fst] in Hd. inversion Hd as [|? ? Hk' Hd']; subst.
  cbn [rev]. rewrite dict_get_app, (IH Hd'). cbn [dict_get].
  destruct (String.eqb_spec k k') as [->|Hne].
  - assert (E : dict_get k' d = None) by now apply dict_get_None_keys.
    now rewrite E.
  - now destruct (dict_get k d).
Qed.

Lemma last_value_app {V : Type} (k : string) (l1 l2 : list (string * V)) :
  last_value k (l1 ++ l2)%list
  = match last_value k l2 with
    | Some v => Some v
    | None => last_value k l1
    end.
Proof. unfold last_value. now rewrite rev_app_distr, dict_get_app. Qed.

Lemma last_value_flat_map {A V : Type} (k : string)
    (f g : A -> list (string * V)) (l : list A) :
  Forall (fun a => last_value k (f a) = last_value k (g a)) l ->
  last_value k (flat_map f l) = last_value k (flat_map g l).
Proof.
  intros H. induction H as [|a l Ha _ IH]; [reflexivity |].
  cbn [flat_map]. now rewrite !last_value_app, IH, Ha.
Qed.

Lemma flatten_value_last {V : Type} (k : string) (o : pyobj V) :
  forall k0, last_value k (flatten_value k0 o)
             = last_value k (leaves_under k0 o).
Proof.
  induction o as [v|d IH] using pyobj_nested_ind; intros k0; [reflexivity |].
  cbn [flatten_value leaves_under].
  rewrite (last_value_NoDup k _ (dict_of_items_NoDup _)), dict_of_items_get.
  apply last_value_flat_map.
  eapply Forall_impl; [| exact IH]. intros [k' o'] H. apply H.
Qed.

Lemma last_value_keys {V : Type} (k : string) (l : list (string * V)) :
  last_value k l = None <-> ~ In k (map fst l).
Proof.
  unfold last_value. rewrite dict_get_None_keys. unfold dict_keys.
  rewrite map_rev, <- in_rev. tauto.
Qed.

(** X14: [flatten_dict] returns a dictionary whose keys are the keys of the
    leaves of the nested dictionary, at whatever depth, each once; the keys
    of the nested dictionaries themselves are not prepended and do not
    appear.  Under a key it holds the value of the leaf of that name written
    last, so leaves of equal name in different sub-dictionaries overwrite
    one another. *)
Theorem flatten_dict_last_leaf :
  forall (V : Type) (d : list (string * pyobj V)) (k : string),
    NoDup (dict_keys (flatten_dict d))
    /\ dict_get k (flatten_dict d) = last_value k (leaves d)
    /\ (In k (dict_keys (flatten_dict d)) <-> In k (map fst (leaves d))).
Proof.
  intros V d k.
  assert (Hget : dict_get k (flatten_dict d) = last_value k (leaves d)).
  { unfold flatten_dict, leaves. rewrite dict_of_items_get.
    apply last_value_flat_map. apply Forall_forall.
    intros [k' o'] _. apply flatten_value_last. }
  split; [apply dict_of_items_NoDup |]. split; [exact Hget |].
  pose proof (dict_get_None_keys k (flatten_dict d)) as H1.
  pose proof (last_value_keys k (leaves d)) as H2.
  rewrite Hget in H1.
  destruct (in_dec string_dec k (dict_keys (flatten_dict d)));
    destruct (in_dec string_dec k (map fst (leaves d))); tauto.
Qed.

Lemma dict_of_items_id {V : Type} (d : dict V) :
  NoDup (dict_keys d) -> dict_of_items d = d.
Proof.
  unfold dict_of_items.
  assert (H : forall acc : dict V,
             NoDup (dict_keys (acc ++ d)%list) ->
             fold_left (fun d kv => dict_set (fst kv) (snd kv) d) d acc
             = (acc ++ d)%list).
  { induction d as [|[k v] d IH]; intros acc Hn.
    - now rewrite app_nil_r.
    - cbn [fold_left fst snd].
      assert (Hset : dict_set k v acc = (acc ++ [(k, v)])%list).
      { assert (Hk : ~ In k (dict_keys acc)).
        { unfold dict_keys in *. rewrite map_app in Hn.
          apply NoDup_remove_2 in Hn. intros Hin. apply Hn.
          apply in_or_app. now left. }
        clear -Hk. induction acc as [|[k' v'] acc IHa]; [reflexivity |].
        cbn [dict_set]. unfold dict_keys in Hk. cbn [map fst] in Hk.
        destruct (String.eqb_spec k k') as [->|Hne].
        - exfalso. apply Hk. now left.
        - cbn [app]. f_equal. apply IHa. intros H. apply Hk. now right. }
      rewrite Hset, IH; rewrite <- app_assoc; [reflexivity | exact Hn]. }
  intros Hd. apply (H [] Hd).
Qed.

(** X15: flattening a flat dictionary changes nothing, so flattening twice
    gives what flattening once gives. *)
Theorem flatten_dict_idempotent :
  forall (V : Type) (d : list (string * pyobj V)) (flat : dict V),
    (NoDup (dict_keys flat) -> flatten_dict (as_leaves flat) = flat)
    /\ flatten_dict (as_leaves (flatten_dict d)) = flatten_dict d.
Proof.
  intros V d flat.
  assert (Hflat : forall f : dict V,
             NoDup (dict_keys f) -> flatten_dict (as_leaves f) = f).
  { intros f Hf. unfold flatten_dict, as_leaves.
    rewrite flat_map_concat_map, map_map. cbn [flatten_value fst snd].
    assert (E : List.concat (map (fun x : string * V => [(fst x, snd x)]) f)
                = f).
    { clear Hf. induction f as [|[k v] f IH]; [reflexivity |].
      cbn [map List.concat app fst snd]. now rewrite IH. }
    rewrite E. now apply dict_of_items_id. }
  split; [apply Hflat |]. apply Hflat, dict_of_items_NoDup.
Qed.

Lemma flatten_dict_idempotent_witness :
  flatten_dict (as_leaves [("a", 1%nat); ("b", 2%nat)])
  = [("a", 1%nat); ("b", 2%nat)].
Proof.
  apply (proj1 (flatten_dict_idempotent nat [] [("a", 1%nat); ("b", 2%nat)])).
  repeat constructor; simpl; intuition discriminate.
Defined.

(** ** Loading the snapshot *)

Section LoadingFacts.
Variable strip : string -> string.
Variable tuple_of_set : list string -> list string.
Hypothesis tuple_of_set_spec :
  forall l, NoDup (tuple_of_set l)
            /\ forall x, In x (tuple_of_set l) <-> In x l.

Lemma normalize_cell_spec (x : list string) :
  normalize_cell strip tuple_of_set x <> []
  /\ NoDup (normalize_cell strip tuple_of_set x)
  /\ (x = [] \/ x = [""] -> normalize_cell strip tuple_of_set x = ["None"]).
Proof.
  unfold normalize_cell. split; [| split].
  - destruct x as [|a x]; [discriminate |]. cbn [List.length Nat.eqb orb].
    destruct (_ && _); [discriminate |].
    intros E. destruct (tuple_of_set_spec (map strip (a :: x))) as [_ H].
    specialize (H (strip a)). rewrite E in H. apply H. now left.
  - destruct (_ || _).
    + constructor; [intros [] | constructor].
    + apply tuple_of_set_spec.
  - intros [-> | ->]; reflexivity.
Qed.

(** X16: whatever order [tuple(set(...))] takes, [load_data] returns a
    normalized snapshot: every row has a year from 2000 on and a journal
    other than the excluded one, and its country cell is never null but a
    non-empty tuple without repetition, which is [("None",)] when the country
    string of the table was null or empty. *)
Theorem load_data_normalized :
  forall tb : list table_row,
    normalized (load_data strip tuple_of_set tb)
    /\ forall r,
         In r (load_data strip tuple_of_set tb) ->
         2000 <= year r
         /\ journal r <> excluded_journal
         /\ exists (t : table_row) (cs : list string),
              In t tb
              /\ year r = t_year t /\ journal r = t_journal t
              /\ is_data_pred r = t_is_data_pred t
              /\ is_code_pred r = t_is_code_pred t
              /\ affiliation_country r = Some cs
              /\ cs <> [] /\ NoDup cs
              /\ (t_affiliation_country t = None
                  \/ t_affiliation_country t = Some "" ->
                  cs = ["None"]).
Proof.
  intros tb.
  assert (Hrows : forall r,
             In r (load_data strip tuple_of_set tb) ->
             2000 <= year r
             /\ journal r <> excluded_journal
             /\ exists (t : table_row) (cs : list string),
                  In t tb
                  /\ year r = t_year t /\ journal r = t_journal t
                  /\ is_data_pred r = t_is_data_pred t
                  /\ is_code_pred r = t_is_code_pred t
                  /\ affiliation_country r = Some cs
                  /\ cs <> [] /\ NoDup cs
                  /\ (t_affiliation_country t = None
                      \/ t_affiliation_country t = Some "" ->
                      cs = ["None"])).
  { intros r Hr. unfold load_data in Hr. cbv zeta in Hr.
    apply filter_In in Hr. destruct Hr as [Hr Hj].
    apply in_map_iff in Hr. destruct Hr as [[t pieces] [<- Hr]].
    apply filter_In in Hr. destruct Hr as [Hr Hy].
    apply in_map_iff in Hr. destruct Hr as [t' [E Ht]].
    injection E as -> <-. cbn [fst snd] in *.
    cbn [year journal affiliation_country is_data_pred is_code_pred] in *.
    split; [now apply Z.leb_le |]. split.
    - apply negb_true_iff in Hj. now apply String.eqb_neq.
    - exists t. eexists. split; [exact Ht |].
      do 4 (split; [reflexivity |]). split; [reflexivity |].
      destruct (normalize_cell_spec
                  (split_pattern ";"%char
                     match t_affiliation_country t with
                     | Some c => c
                     | None => ""
                     end)) as [H1 [H2 H3]].
      split; [exact H1 |]. split; [exact H2 |].
      intros [E | E]; rewrite E in *; apply H3; right; reflexivity. }
  split; [| exact Hrows].
  intros r Hr. destruct (Hrows r Hr) as [_ [_ [t [cs [_ [_ [_ [_ [_ [E _]]]]]]]]]].
  rewrite E. discriminate.
Qed.

(** X17: when the table has a row from 2000 on, of another journal than the
    excluded one, whose country string is null or empty, ["None"] is a key
    of the counts [get_countries_with_count] builds from the loaded
    snapshot, so it belongs to the country universe. *)
Theorem missing_countries_counted_as_None :
  forall (tb : list table_row) (t : table_row),
    In t tb ->
    2000 <= t_year t ->
    t_journal t <> excluded_journal ->
    t_affiliation_country t = None \/ t_affiliation_country t = Some "" ->
    In "None"
      (dict_keys
         (count_countries
            (map affiliation_country (load_data strip tuple_of_set tb)))).
Proof.
  intros tb t Ht Hy Hj Hc.
  apply (count_countries_lookup _ "None").
  set (r := mk_record (t_year t) (t_journal t) (Some ["None"])
              (t_fund_pmc_institute t) (t_is_data_pred t)
              (t_is_code_pred t)).
  assert (Hr : In r (load_data strip tuple_of_set tb)).
  { unfold load_data. cbv zeta. apply filter_In. split.
    - apply in_map_iff.
      exists (t, split_pattern ";"%char
                   match t_affiliation_country t with
                   | Some c => c
                   | None => ""
                   end).
      split.
      + unfold r. cbn [fst snd]. f_equal. f_equal.
        apply normalize_cell_spec. right.
        destruct Hc as [-> | ->]; reflexivity.
      + apply filter_In. split; [| cbn [fst]; now apply Z.leb_le].
        apply in_map_iff. exists t. split; [reflexivity | exact Ht].
    - unfold r. cbn [journal]. apply negb_true_iff.
      now apply String.eqb_neq. }
  assert (Hocc : forall rows : list record,
             In r rows ->
             (0 < occurrences "None" (map affiliation_country rows))%nat).
  { intros rows. unfold occurrences.
    induction rows as [|r' rows IH]; intros Hin; [destruct Hin |].
    cbn [map list_sum fold_right]. destruct Hin as [-> | Hin].
    - unfold r. cbn. lia.
    - specialize (IH Hin). unfold list_sum in IH. lia. }
  now apply Hocc.
Qed.
End LoadingFacts.

Lemma load_data_normalized_witness :
  normalized
    (load_data (fun x => x) (unique String.eqb)
       [ mk_table_row 2001 "J" (Some "US;FR") "" true false;
         mk_table_row 2005 "J" None "" true false ]).
Proof.
  apply (load_data_normalized (fun x => x) (unique String.eqb)).
  intros l. split.
  - apply (unique_NoDup String.eqb String.eqb_eq).
  - intros x. apply (unique_In String.eqb String.eqb_eq).
Defined.

Lemma missing_countries_counted_as_None_witness :
  In "None"
    (dict_keys
       (count_countries
          (map affiliation_country
             (load_data (fun x => x) (unique String.eqb)
                [ mk_table_row 2001 "J" (Some "US;FR") "" true false;
                  mk_table_row 2005 "J" None "" true false ])))).
Proof.
  apply (missing_countries_counted_as_None (fun x => x) (unique String.eqb))
    with (t := mk_table_row 2005 "J" None "" true false).
  - intros l. split.
    + apply (unique_NoDup String.eqb String.eqb_eq).
    + intros x. apply (unique_In String.eqb String.eqb_eq).
  - right. left. reflexivity.
  - cbn. lia.
  - cbn. unfold excluded_journal. discriminate.
  - left. reflexivity.
Defined.

(** X18: the pieces [split_pattern] cuts a string into hold no separator and
    are one more than the separators of the string, and joining them with the
    separator gives the string back; the empty string gives one empty
    piece. *)
Theorem split_pattern_round_trip :
  forall (sep : ascii) (s : string),
    String.concat (String sep EmptyString) (split_pattern sep s) = s
    /\ Forall (fun piece => ~ In sep (list_ascii_of_string piece))
         (split_pattern sep s)
    /\ List.length (split_pattern sep s)
       = S (count_occ ascii_dec (list_ascii_of_string s) sep)
    /\ split_pattern sep EmptyString = [EmptyString].
Proof.
  intros sep s. split; [| split; [| split; [| reflexivity]]].
  - induction s as [|c s IH]; [reflexivity |].
    assert (Hne : split_pattern sep s <> []).
    { destruct s as [|c' s']; cbn [split_pattern]; [discriminate |].
      destruct (Ascii.eqb c' sep); [discriminate |].
      destruct (split_pattern sep s'); discriminate. }
    cbn [split_pattern]. destruct (Ascii.eqb_spec c sep) as [->|Hc].
    + destruct (split_pattern sep s) as [|p ps]; [congruence |].
      change (String.concat (String sep "") ("" :: p :: ps))
        with ("" ++ String sep ""
              ++ String.concat (String sep "") (p :: ps)).
      rewrite IH. reflexivity.
    + destruct (split_pattern sep s) as [|p ps]; [congruence |].
      destruct ps as [|p' ps].
      * cbn [String.concat] in *. now rewrite IH.
      * change (String.concat (String sep "") (String c p :: p' :: ps))
          with (String c
                  (p ++ String sep ""
                   ++ String.concat (String sep "") (p' :: ps))).
        change (String.concat (String sep "") (p :: p' :: ps))
          with (p ++ String sep ""
                ++ String.concat (String sep "") (p' :: ps)) in IH.
        now rewrite IH.
  - induction s as [|c s IH]; [constructor; [intros [] | constructor] |].
    cbn [split_pattern]. destruct (Ascii.eqb_spec c sep) as [->|Hne].
    + constructor; [intros [] | exact IH].
    + destruct (split_pattern sep s) as [|p ps].
      * constructor; [| constructor]. cbn. intros [E | []]. congruence.
      * inversion IH as [|? ? Hp Hps]; subst. constructor; [| exact Hps].
        cbn. intros [E | Hin]; [congruence | contradiction].
  - induction s as [|c s IH]; [reflexivity |].
    cbn [split_pattern list_ascii_of_string count_occ].
    destruct (Ascii.eqb_spec c sep) as [->|Hne].
    + destruct (ascii_dec sep sep); [| congruence]. cbn [List.length].
      now rewrite IH.
    + destruct (ascii_dec c sep); [congruence |].
      destruct (split_pattern sep s) as [|p ps]; [discriminate |].
      exact IH.
Qed.

(** ** The chart and the filtered rows *)

Lemma updated_echart_plot_axis (s : state) (cfg : echarts_config) :
  updated_echart_plot s = Ok (Some cfg) ->
  exists df,
    filtered_grouped_data s = Ok df
    /\ xAxis_data cfg = unique Z.eqb (map row_year (rows df)).
Proof.
  unfold updated_echart_plot.
  destruct (filter_pubdate s) as [[lo hi]|]; [| discriminate].
  destruct (filtered_grouped_data s) as [e|df]; [discriminate |].
  cbn [bind].
  destruct (dict_get (metrics s) metrics_by_title) as [raw_metric|];
    [| discriminate].
  cbn [from_option bind Ok].
  match goal with
  | |- bind ?X _ = _ -> _ => destruct X as [e|[series legend]]
  end; [discriminate |].
  cbn [bind].
  destruct lo as [lo|]; [| discriminate].
  destruct hi as [hi|]; [| discriminate].
  cbn [from_option bind Ok]. intros H. injection H as <-.
  exists df. split; reflexivity.
Qed.

Lemma aggregated_years (s : state) (filtered : list record) (df : frame) :
  normalized (raw_data s) ->
  filtered_df s = Ok filtered ->
  filtered_grouped_data s = Ok df ->
  forall y, In y (map row_year (rows df))
            <-> exists r, In r filtered /\ year r = y.
Proof.
  intros Hnorm Hfl Hdf y.
  pose proof (filtered_df_incl s filtered Hfl) as Hincl.
  unfold filtered_grouped_data in Hdf. rewrite Hfl in Hdf.
  destruct aggretations_ok as [aggs Ha]. rewrite Ha in Hdf.
  cbn [bind Ok] in Hdf.
  assert (Hgroups :
            forall v rs,
              v <> SV_year ->
              (forall g, In g (map row_group rs)
                         <-> exists r, In r filtered /\ group_of v r = Some g) ->
              In y (map row_year rs)
              <-> exists r, In r filtered /\ year r = y).
  { intros v rs Hv Hiff. split.
    - intros Hy. apply in_map_iff in Hy. destruct Hy as [row [<- Hrow]].
      destruct (proj1 (Hiff (row_group row)) (in_map row_group _ _ Hrow))
        as [r [Hr Hg]].
      exists r. split; [exact Hr |].
      unfold group_of in Hg. destruct v; try congruence;
        try (destruct (split_cell _ r); [| discriminate]);
        injection Hg as E; unfold row_group in E; congruence.
    - intros [r [Hr <-]].
      destruct (group_of_defined v r Hv (Hnorm r (Hincl r Hr))) as [g Hg].
      assert (Hin : In g (map row_group rs)) by (apply Hiff; eauto).
      apply in_map_iff in Hin. destruct Hin as [row [E Hrow]].
      apply in_map_iff. exists row. split; [| exact Hrow].
      unfold group_of in Hg. subst g. destruct v; try congruence;
        try (destruct (split_cell _ r); [| discriminate]);
        injection Hg as E; unfold row_group in E; congruence. }
  destruct (splitting_var s) eqn:Hv; try discriminate;
    injection Hdf as <-; cbn [rows].
  - apply (Hgroups SV_None); [discriminate | apply groupby_year_exact].
  - apply (Hgroups SV_journal); [discriminate |].
    apply groupby_year_split_exact. discriminate.
  - apply (Hgroups SV_affiliation_country); [discriminate |].
    apply groupby_year_split_exact. discriminate.
  - apply (Hgroups SV_fund_pmc_institute); [discriminate |].
    apply groupby_year_split_exact. discriminate.
Qed.

(** X19: on a normalized snapshot the x-axis of the chart holds exactly the
    years in which some row passes the filters, each once and in increasing
    order, whatever the split. *)
Theorem chart_axis_is_filtered_years :
  forall (s : state) (filtered : list record) (cfg : echarts_config),
    normalized (raw_data s) ->
    filtered_df s = Ok filtered ->
    updated_echart_plot s = Ok (Some cfg) ->
    StronglySorted Z.lt (xAxis_data cfg)
    /\ forall y, In y (xAxis_data cfg)
                 <-> exists r, In r filtered /\ year r = y.
Proof.
  intros s filtered cfg Hnorm Hfl Hcfg.
  destruct (updated_echart_plot_axis s cfg Hcfg) as [df [Hdf ->]].
  split.
  - apply unique_increasing. apply (aggregated_years_sorted s df Hdf).
  - intros y. rewrite (unique_In Z.eqb Z.eqb_eq).
    now apply (aggregated_years s filtered df).
Qed.

Lemma chart_axis_is_filtered_years_witness :
  exists cfg : echarts_config,
    updated_echart_plot (split_by SV_journal (loaded gap_papers))
    = Ok (Some cfg)
    /\ StronglySorted Z.lt (xAxis_data cfg).
Proof.
  assert (Hn : normalized (raw_data (split_by SV_journal (loaded gap_papers)))).
  { intros r Hr. vm_compute in Hr.
    destruct Hr as [<- | [<- | [<- | []]]]; discriminate. }
  destruct (filtered_df (split_by SV_journal (loaded gap_papers)))
    as [e|fl] eqn:Hfl; [vm_compute in Hfl; discriminate |].
  assert (H : exists cfg,
             updated_echart_plot (split_by SV_journal (loaded gap_papers))
             = Ok (Some cfg))
    by (eexists; vm_compute; reflexivity).
  destruct H as [cfg Hcfg]. exists cfg. split; [exact Hcfg |].
  exact (proj1 (chart_axis_is_filtered_years _ fl cfg Hn Hfl Hcfg)).
Defined.





(** ** From the rules to the chart *)

Lemma did_change_splitting_var_keeps (s s' : state) :
  did_change_splitting_var s = Ok s' ->
  In (splitting_var s) [SV_None; SV_journal; SV_affiliation_country]
  /\ splitting_var s' = splitting_var s
  /\ raw_data s' = raw_data s
  /\ metrics_objects s' = metrics_objects s
  /\ filter_pubdate s' = filter_pubdate s.
Proof.
  destruct (splitting_var s) eqn:Hs.
  - rewrite (did_change_splitting_var_unbound s (or_introl Hs)). discriminate.
  - rewrite (did_change_splitting_var_None s Hs). intros H. injection H as <-.
    cbn. rewrite Hs. repeat split. now left.
  - rewrite (did_change_splitting_var_journal s Hs). intros H.
    injection H as <-. cbn. rewrite Hs. repeat split. right. now left.
  - rewrite (did_change_splitting_var_country s Hs).
    destruct (nth_error (qualifying_counts s) 10); [| discriminate].
    intros H. injection H as <-.
    unfold get_countries_with_count.
    destruct (countries_cache
                (set_filter_journal (filter_journal_objects s) s));
      cbn; rewrite Hs; repeat split; right; right; now left.
  - rewrite (did_change_splitting_var_unbound s (or_intror Hs)). discriminate.
Qed.

Lemma did_change_extraction_tool_catalog (now_year : Z) (s s1 : state) :
  did_change_extraction_tool now_year s = Ok s1 ->
  metrics_objects s1 = catalog /\ metrics s1 = "Data Sharing (%)".
Proof.
  rewrite did_change_extraction_tool_unfold.
  destruct (dict_get (extraction_tool s) (datasets s)) as [raw|];
    [| discriminate].
  destruct (String.eqb (extraction_tool s) "RTransparent"); [| discriminate].
  cbv zeta. unfold assign_splitting_var. cbn [splitting_var].
  destruct (splitting_eqb SV_None (splitting_var s)).
  - intros H. injection H as <-. split; reflexivity.
  - rewrite did_change_splitting_var_None by reflexivity.
    intros H. injection H as <-. split; reflexivity.
Qed.

(** X21: the rules hand the chart builder inputs it accepts.  After the
    extraction-tool rule on a non-empty snapshot, and after any successful
    run of the splitting-variable rule, the chart builder assigns a
    configuration for every metric the selector offers; the metric the rule
    selects is the first of them. *)
Theorem resolver_feeds_chart :
  forall (now_year : Z) (s s1 s2 : state) (v : splitting) (m : string),
    did_change_extraction_tool now_year s = Ok s1 ->
    raw_data s1 <> [] ->
    did_change_splitting_var (set_splitting_var v s1) = Ok s2 ->
    In m (metrics_objects s2) ->
    nth_error (metrics_objects s2) 0 = Some (metrics s1)
    /\ exists cfg : echarts_config,
         updated_echart_plot (set_metrics m s2) = Ok (Some cfg).
Proof.
  intros now_year s s1 s2 v m H1 Hne H2 Hm.
  destruct (did_change_extraction_tool_catalog _ _ _ H1) as [Hcat Hfirst].
  destruct (did_change_extraction_tool_fields _ _ _ H1)
    as [_ [_ [_ [Hp _]]]].
  destruct (year_min_max_spec (raw_data s1) Hne) as [lo [hi [Hlo [Hhi _]]]].
  rewrite Hlo, Hhi in Hp.
  destruct (did_change_splitting_var_keeps _ _ H2)
    as [Hv [Hv' [_ [Hobjs Hp']]]].
  cbn [splitting_var metrics_objects filter_pubdate set_splitting_var]
    in Hv, Hv', Hobjs, Hp'.
  rewrite Hobjs, Hcat in *. split; [now rewrite Hfirst |].
  destruct (updated_echart_plot_config (set_metrics m s2) lo hi)
    as [df [raw [title [legend [_ [_ H]]]]]].
  - cbn [filter_pubdate set_metrics]. now rewrite Hp', Hp.
  - exact Hm.
  - cbn [splitting_var set_metrics]. now rewrite Hv'.
  - eexists. exact H.
Qed.

Lemma resolver_feeds_chart_witness :
  exists cfg : echarts_config,
    updated_echart_plot
      (set_metrics "Code Sharing" (split_by SV_journal (loaded gap_papers)))
    = Ok (Some cfg).
Proof.
  assert (H1 : did_change_extraction_tool 2024 (dashboard_on gap_papers)
               = Ok (loaded gap_papers))
    by (vm_compute; reflexivity).
  assert (H2 : did_change_splitting_var
                 (set_splitting_var SV_journal (loaded gap_papers))
               = Ok (split_by SV_journal (loaded gap_papers)))
    by (vm_compute; reflexivity).
  refine (proj2 (resolver_feeds_chart 2024 _ _ _ SV_journal "Code Sharing"
                   H1 _ H2 _)).
  - vm_compute. discriminate.
  - vm_compute. right. right. right. left. reflexivity.
Defined.

(** ** Widening the filters *)

(** X22: widening the date range or adding journals to the selection never
    removes a row from the result of the filtering step. *)
Theorem filtering_monotone :
  forall (s : state) (lo hi lo' hi' : Z) (more : list string),
    filter_pubdate s = Some (Some lo, Some hi) ->
    lo' <= lo ->
    hi <= hi' ->
    exists df df' : list record,
      filtered_df s = Ok df
      /\ filtered_df
           (set_filter_pubdate (Some (Some lo', Some hi'))
              (set_filter_journal (filter_journal s ++ more) s))
         = Ok df'
      /\ incl df df'.
Proof.
  intros s lo hi lo' hi' more Hp Hlo Hhi.
  set (s' := set_filter_pubdate (Some (Some lo', Some hi'))
               (set_filter_journal (filter_journal s ++ more) s)).
  assert (Hn : numeric_range s) by (unfold numeric_range; now rewrite Hp).
  assert (Hn' : numeric_range s') by exact I.
  do 2 eexists. split; [apply (filtered_df_passes s Hn) |].
  split; [apply (filtered_df_passes s' Hn') |].
  intros r Hr. apply filter_In in Hr. destruct Hr as [Hr Hpass].
  apply filter_In. split; [exact Hr |].
  apply andb_true_iff in Hpass. destruct Hpass as [Hpass Hc].
  apply andb_true_iff in Hpass. destruct Hpass as [Hj Hd].
  rewrite !andb_true_iff. split; [split |].
  - unfold passes_journal, journal_clauses, int_ne_list in *.
    cbn in *. rewrite andb_true_r in *. apply mem_In. apply mem_In in Hj.
    apply in_or_app. now left.
  - unfold passes_pubdate, pubdate_clauses in *. rewrite Hp in Hd.
    cbn in *. rewrite andb_true_r in *.
    apply andb_true_iff in Hd. destruct Hd as [A B].
    apply Z.leb_le in A, B. apply andb_true_iff.
    split; apply Z.leb_le; lia.
  - exact Hc.
Qed.

Lemma filtering_monotone_witness :
  exists df df' : list record,
    filtered_df (set_filter_journal ["J1"] (loaded three_papers)) = Ok df
    /\ filtered_df
         (set_filter_pubdate (Some (Some 2019, Some 2022))
            (set_filter_journal (["J1"] ++ ["J2"])
               (set_filter_journal ["J1"] (loaded three_papers))))
       = Ok df'
    /\ incl df df'.
Proof.
  apply (filtering_monotone
           (set_filter_journal ["J1"] (loaded three_papers))
           2020 2021 2019 2022 ["J2"]).
  - vm_compute. reflexivity.
  - lia.
  - lia.
Defined.

(** X23: the journal universe the extraction-tool rule derives lists every
    journal of the snapshot once, and nothing else. *)
Theorem journal_universe_exact :
  forall (now_year : Z) (s s1 : state),
    did_change_extraction_tool now_year s = Ok s1 ->
    NoDup (filter_journal_objects s1)
    /\ forall j, In j (filter_journal_objects s1)
                 <-> exists r, In r (raw_data s1) /\ journal r = j.
Proof.
  intros now_year s s1 H.
  rewrite (extraction_tool_journal_universe _ _ _ H). split.
  - apply (unique_NoDup String.eqb String.eqb_eq).
  - intros j. rewrite (unique_In String.eqb String.eqb_eq), in_map_iff.
    split; intros [r [A B]]; exists r; tauto.
Qed.

Lemma journal_universe_exact_witness :
  NoDup (filter_journal_objects (loaded three_papers)).
Proof.
  assert (H1 : did_change_extraction_tool 2024 (dashboard_on three_papers)
               = Ok (loaded three_papers))
    by (vm_compute; reflexivity).
  exact (proj1 (journal_universe_exact 2024 _ _ H1)).
Defined.
